(** * Anonymiseur Juridique RGPD: the entity store of the React front end

    A shallow embedding of the curation handlers of the [App] component
    (toggleEntity, updateEntityReplacement, deleteEntity, createGroup,
    addManualEntity, generateDocument and the select-all button), in the
    variants the repository ships:

    - [Complete]: the component of src/unnamed/part_000 (the only one with
      manual insertion);
    - [Corrected]: the component appended to src/installation_guide.md
      (marked CORRECTED in its comments), which adds input guards.

    toggleEntity and the select-all button read the same in every variant,
    those of src/frontend/src/App.js included, and are embedded once.  The
    DocumentRewriter of the back end is not part of the sources; module
    [DocumentRewriter] follows its description in the specification.

    Beside the handlers, the file embeds what the dashboard derives from
    the store (the counters [stats], the displayed list [filteredEntities],
    the grouping ticks) and, in module [Upload], the upload side of the
    corrected component: [checkStatus], the mode cards, [onDrop] and the
    events of the component as a transition system.

    A handler is a closure over the values of one render: it reads the
    snapshot [entities], [selectedEntities], [document] and schedules
    updates with the setters.  It is embedded as a function from the
    snapshot (and from what the browser answers: [window.confirm],
    [prompt], [Date.now], the HTTP response) to the next snapshot and the
    list of effects it performed, in program order. *)

From Stdlib Require Import List ZArith NArith QArith Bool Btauto Lia.
From Stdlib Require DecimalN.
From Stdlib Require Import Permutation.
Import ListNotations.

Set Implicit Arguments.

#[local] Open Scope Z_scope.

(* ===================================================================== *)
(** ** JavaScript strings *)
(* ===================================================================== *)

(** A JS string is a sequence of UTF-16 code units. *)
Definition jsstring := list N.

Definition jsstring_eqb (a b : jsstring) : bool :=
  if list_eq_dec N.eq_dec a b then true else false.

(** White space and line terminators of ECMAScript, the characters
    [String.prototype.trim] strips. *)
Definition white_space : list N :=
  [9; 10; 11; 12; 13; 32; 160; 5760;
   8192; 8193; 8194; 8195; 8196; 8197; 8198; 8199; 8200; 8201; 8202;
   8232; 8233; 8239; 8287; 12288; 65279]%N.

Definition is_white_space (c : N) : bool := existsb (N.eqb c) white_space.

Fixpoint trimStart (s : jsstring) : jsstring :=
  match s with
  | [] => []
  | c :: r => if is_white_space c then trimStart r else s
  end.

Definition trimEnd (s : jsstring) : jsstring := rev (trimStart (rev s)).

(** [s.trim()] *)
Definition trim (s : jsstring) : jsstring := trimEnd (trimStart s).

(** Truthiness of a string: [!s] is true exactly for the empty string. *)
Definition truthy (s : jsstring) : bool :=
  match s with [] => false | _ :: _ => true end.

(** Decimal digits of a number, as [n.toString()] prints a non-negative
    integer. *)
Fixpoint uint_units (u : Decimal.uint) : jsstring :=
  match u with
  | Decimal.Nil => []
  | Decimal.D0 r => 48%N :: uint_units r
  | Decimal.D1 r => 49%N :: uint_units r
  | Decimal.D2 r => 50%N :: uint_units r
  | Decimal.D3 r => 51%N :: uint_units r
  | Decimal.D4 r => 52%N :: uint_units r
  | Decimal.D5 r => 53%N :: uint_units r
  | Decimal.D6 r => 54%N :: uint_units r
  | Decimal.D7 r => 55%N :: uint_units r
  | Decimal.D8 r => 56%N :: uint_units r
  | Decimal.D9 r => 57%N :: uint_units r
  end.

Definition toString (n : N) : jsstring := uint_units (N.to_uint n).

(** [s.slice(a, b)] for [0 <= a], used on the document text. *)
Definition slice (s : jsstring) (a b : Z) : jsstring :=
  firstn (Z.to_nat (b - a)) (skipn (Z.to_nat a) s).

(* ===================================================================== *)
(** ** Entities *)
(* ===================================================================== *)

(** The [type] tag; on the wire the lower-case strings of the select box
    of the manual form. *)
Inductive EntityType :=
  person | organization | phone | email | address | legal | siret | ssn.

(** The [source] tag: 'REGEX', 'NER', 'OLLAMA', 'MANUAL'. *)
Inductive Source := REGEX | NER | OLLAMA | MANUAL.

(** [{ start, end }]: offsets into the document; the manual form reads
    them with [parseInt] from number inputs. *)
Record Position := mkPosition { start : Z; end_ : Z }.

Record Entity := mkEntity {
  id : jsstring;
  text : jsstring;
  type : EntityType;
  source : Source;
  confidence : Q;
  replacement : jsstring;
  positions : list Position;
  selected : bool
}.

(** [{ ...entity, selected: v }] *)
Definition with_selected (v : bool) (e : Entity) : Entity :=
  mkEntity (id e) (text e) (type e) (source e) (confidence e)
           (replacement e) (positions e) v.

(** [{ ...entity, replacement: v }] *)
Definition with_replacement (v : jsstring) (e : Entity) : Entity :=
  mkEntity (id e) (text e) (type e) (source e) (confidence e)
           v (positions e) (selected e).

(** [ids.includes(x)] *)
Definition includes (ids : list jsstring) (x : jsstring) : bool :=
  existsb (jsstring_eqb x) ids.

(* ===================================================================== *)
(** ** The snapshot of one render and the effects of a handler *)
(* ===================================================================== *)

Record Document := mkDocument { filename : jsstring; content : jsstring }.

Record State := mkState {
  document : option Document;        (* useState(null) *)
  entities : list Entity;            (* useState([]) *)
  selectedEntities : list jsstring   (* ids ticked for grouping *)
}.

Definition setEntities (es : list Entity) (s : State) : State :=
  mkState (document s) es (selectedEntities s).

Definition setSelectedEntities (ids : list jsstring) (s : State) : State :=
  mkState (document s) (entities s) ids.

(** The messages the handlers show with [alert]. *)
Inductive Notice :=
  | NoticeGroupTooSmall          (* 'Sélectionnez au moins 2 entités pour créer un groupe' *)
  | NoticeGroupCreated (name : jsstring) (count : nat)
                                 (* `Groupe "${name}" créé avec ${count} entités` *)
  | NoticeManualAdded            (* 'Entité manuelle ajoutée avec succès!' *)
  | NoticeEmptyReplacement       (* 'Le remplacement ne peut pas être vide' *)
  | NoticeNoEntity               (* 'Aucune entité à traiter pour la génération du document' *)
  | NoticeNoneSelected           (* 'Sélectionnez au moins une entité à anonymiser' *)
  | NoticeGeneratedPlain         (* 'Document anonymisé généré avec succès!' *)
  | NoticeGenerated (count : nat)(* `... généré avec succès ! ... ${count} entités anonymisées` *)
  | NoticeGenerationError.       (* the alert of the catch block of generateDocument *)

(** The body of the POST to [/generate-document]. *)
Record Payload := mkPayload {
  payload_entities : list Entity;
  original_content : jsstring;
  payload_filename : jsstring
}.

Inductive Effect :=
  | Alert (n : Notice)
  | PostGenerateDocument (p : Payload)
  | Download (name : jsstring).        (* [link.click()] on the blob link *)

(* ===================================================================== *)
(** ** Handlers shared by every variant *)
(* ===================================================================== *)

(** [[
  const toggleEntity = (entityId) => {
    setEntities(entities.map(entity =>
      entity.id === entityId
        ? { ...entity, selected: !entity.selected }
        : entity));
  };
]] *)
Definition toggle_one (entityId : jsstring) (entity : Entity) : Entity :=
  if jsstring_eqb (id entity) entityId
  then with_selected (negb (selected entity)) entity
  else entity.

Definition toggleEntity (entityId : jsstring) (s : State) : State :=
  setEntities (map (toggle_one entityId) (entities s)) s.

(** The select-all button:
[[
  const allSelected = entities.every(e => e.selected);
  setEntities(entities.map(e => ({ ...e, selected: !allSelected })));
]] *)
Definition selectAll (s : State) : State :=
  let allSelected := forallb selected (entities s) in
  setEntities (map (with_selected (negb allSelected)) (entities s)) s.

(** [`${document.filename.split('.')[0]}_anonymise.docx`] *)
Fixpoint before_dot (s : jsstring) : jsstring :=
  match s with
  | [] => []
  | c :: r => if N.eqb c 46 then [] else c :: before_dot r
  end.

Definition anonymise_suffix : jsstring :=
  [95; 97; 110; 111; 110; 121; 109; 105; 115; 101; 46; 100; 111; 99; 120]%N.

Definition output_name (d : Document) : jsstring :=
  before_dot (filename d) ++ anonymise_suffix.

(** [entity.id !== entityId], the predicate of the [filter] in deleteEntity. *)
Definition other_id (entityId : jsstring) (entity : Entity) : bool :=
  negb (jsstring_eqb (id entity) entityId).

(* ===================================================================== *)
(** ** The component of src/unnamed/part_000 *)
(* ===================================================================== *)

Module Complete.

(** [[
  const updateEntityReplacement = (entityId, newReplacement) => {
    setEntities(entities.map(entity =>
      entity.id === entityId
        ? { ...entity, replacement: newReplacement }
        : entity));
  };
]] *)
Definition updateEntityReplacement
  (entityId newReplacement : jsstring) (s : State) : State * list Effect :=
  (setEntities
     (map (fun entity =>
             if jsstring_eqb (id entity) entityId
             then with_replacement newReplacement entity
             else entity)
          (entities s)) s,
   []).

(** [[
  const deleteEntity = (entityId) => {
    if (window.confirm('Êtes-vous sûr de vouloir supprimer cette entité ?')) {
      setEntities(entities.filter(entity => entity.id !== entityId));
    }
  };
]]
    [confirmed] is the answer of [window.confirm]. *)
Definition deleteEntity
  (entityId : jsstring) (confirmed : bool) (s : State) : State * list Effect :=
  if confirmed
  then (setEntities (filter (other_id entityId) (entities s)) s, [])
  else (s, []).

(** [[
  const createGroup = () => {
    if (selectedEntities.length < 2) {
      alert('Sélectionnez au moins 2 entités pour créer un groupe');
      return;
    }
    const groupReplacement = prompt('Nom du groupe:');
    if (groupReplacement) {
      setEntities(entities.map(entity =>
        selectedEntities.includes(entity.id)
          ? { ...entity, replacement: groupReplacement }
          : entity));
      setSelectedEntities([]);
      alert(`Groupe "${groupReplacement}" créé avec ${selectedEntities.length} entités`);
    }
  };
]]
    [answer] is what [prompt] returns: [None] for null (dialog cancelled). *)
Definition createGroup
  (answer : option jsstring) (s : State) : State * list Effect :=
  if (length (selectedEntities s) <? 2)%nat
  then (s, [Alert NoticeGroupTooSmall])
  else
    match answer with
    | Some groupReplacement =>
        if truthy groupReplacement
        then
          (setSelectedEntities []
             (setEntities
                (map (fun entity =>
                        if includes (selectedEntities s) (id entity)
                        then with_replacement groupReplacement entity
                        else entity)
                     (entities s)) s),
           [Alert (NoticeGroupCreated groupReplacement
                     (length (selectedEntities s)))])
        else (s, [])
    | None => (s, [])
    end.

(** [[
  const addManualEntity = (text, type, replacement, startPos, endPos) => {
    const newEntity = {
      id: Date.now().toString(),
      text, type,
      source: 'MANUAL',
      confidence: 1.0,
      replacement,
      positions: [{ start: startPos, end: endPos }],
      selected: true
    };
    setEntities([...entities, newEntity]);
    alert('Entité manuelle ajoutée avec succès!');
  };
]]
    [now] is the value of [Date.now()]. *)
Definition newEntity
  (text : jsstring) (type : EntityType) (replacement : jsstring)
  (startPos endPos : Z) (now : N) : Entity :=
  mkEntity (toString now) text type MANUAL 1%Q replacement
           [mkPosition startPos endPos] true.

Definition addManualEntity
  (text : jsstring) (type : EntityType) (replacement : jsstring)
  (startPos endPos : Z) (now : N) (s : State) : State * list Effect :=
  (setEntities
     (entities s ++ [newEntity text type replacement startPos endPos now]) s,
   [Alert NoticeManualAdded]).

(** [[
  const [document, setDocument] = useState(null);          // line 11
  ...
  const generateDocument = async () => {
    try {
      const formData = new FormData();
      formData.append('original_content', document.content);
      ...
      const response = await axios.post(`${API}/generate-document`, entities, {
        params: { original_content: document.content, filename: ... },
        responseType: 'blob' });
      const url = window.URL.createObjectURL(new Blob([response.data]));
      const link = document.createElement('a');              // line 99
      ... link.click(); link.remove();
      alert('Document anonymisé généré avec succès!');
    } catch (error) { alert('Erreur lors de la génération du document: ' + ...); }
  };
]]
    [server p] tells whether the request with body [p] is answered with a
    document.  Reading [document.content] of a null document throws into
    the catch block.  Inside [App] the name [document] is the state
    variable, the object [{ filename, content }], not the DOM: it has no
    [createElement], so after an answered request
    [document.createElement('a')] throws as well, and neither
    [link.click()] nor the success alert is reached. *)
Definition generateDocument
  (server : Payload -> bool) (s : State) : list Effect :=
  match document s with
  | None => [Alert NoticeGenerationError]
  | Some d =>
      let p := mkPayload (entities s) (content d) (output_name d) in
      if server p
      then (* answered: [document.createElement] throws into the catch block *)
        [PostGenerateDocument p; Alert NoticeGenerationError]
      else (* the request failed: the catch block *)
        [PostGenerateDocument p; Alert NoticeGenerationError]
  end.

End Complete.

(* ===================================================================== *)
(** ** The corrected component of src/installation_guide.md *)
(* ===================================================================== *)

Module Corrected.

(** [[
  const updateEntityReplacement = (entityId, newReplacement) => {
    if (!newReplacement || newReplacement.trim() === '') {
      alert('❌ Le remplacement ne peut pas être vide');
      return;
    }
    setEntities(entities.map(entity =>
      entity.id === entityId
        ? { ...entity, replacement: newReplacement.trim() }
        : entity));
  };
]] *)
Definition updateEntityReplacement
  (entityId newReplacement : jsstring) (s : State) : State * list Effect :=
  if negb (truthy newReplacement) || jsstring_eqb (trim newReplacement) []
  then (s, [Alert NoticeEmptyReplacement])
  else
    (setEntities
       (map (fun entity =>
               if jsstring_eqb (id entity) entityId
               then with_replacement (trim newReplacement) entity
               else entity)
            (entities s)) s,
     []).

(** [[
  const deleteEntity = (entityId) => {
    if (window.confirm('Êtes-vous sûr de vouloir supprimer cette entité ?')) {
      setEntities(entities.filter(entity => entity.id !== entityId));
      // Remove from selection if selected
      setSelectedEntities(selectedEntities.filter(id => id !== entityId));
    }
  };
]] *)
Definition deleteEntity
  (entityId : jsstring) (confirmed : bool) (s : State) : State * list Effect :=
  if confirmed
  then
    (setSelectedEntities
       (filter (fun i => negb (jsstring_eqb i entityId)) (selectedEntities s))
       (setEntities (filter (other_id entityId) (entities s)) s),
     [])
  else (s, []).

(** [[
  const createGroup = () => {
    if (selectedEntities.length < 2) {
      alert('❌ Sélectionnez au moins 2 entités pour créer un groupe');
      return;
    }
    const groupReplacement = prompt('Nom du groupe (remplacement commun) :');
    if (groupReplacement && groupReplacement.trim()) {
      setEntities(entities.map(entity =>
        selectedEntities.includes(entity.id)
          ? { ...entity, replacement: groupReplacement.trim() }
          : entity));
      setSelectedEntities([]);
      alert(`✅ Groupe "${groupReplacement}" créé avec ${selectedEntities.length} entités`);
    }
  };
]] *)
Definition createGroup
  (answer : option jsstring) (s : State) : State * list Effect :=
  if (length (selectedEntities s) <? 2)%nat
  then (s, [Alert NoticeGroupTooSmall])
  else
    match answer with
    | Some groupReplacement =>
        if truthy groupReplacement && truthy (trim groupReplacement)
        then
          (setSelectedEntities []
             (setEntities
                (map (fun entity =>
                        if includes (selectedEntities s) (id entity)
                        then with_replacement (trim groupReplacement) entity
                        else entity)
                     (entities s)) s),
           [Alert (NoticeGroupCreated groupReplacement
                     (length (selectedEntities s)))])
        else (s, [])
    | None => (s, [])
    end.

(** [[
  const generateDocument = async () => {
    if (!entities || entities.length === 0) {
      alert('❌ Aucune entité à traiter pour la génération du document');
      return;
    }
    const selectedCount = entities.filter(e => e.selected).length;
    if (selectedCount === 0) {
      alert('❌ Sélectionnez au moins une entité à anonymiser');
      return;
    }
    try {
      const payload = { entities: entities,
                        original_content: document.content,
                        filename: `${document.filename.split('.')[0]}_anonymise.docx` };
      const response = await axios.post(`${API}/generate-document`, payload, ...);
      const url = window.URL.createObjectURL(new Blob([response.data], ...));
      const link = document.createElement('a');              // line 474
      ... link.click(); link.remove(); ...
      alert(`✅ Document anonymisé généré avec succès ! ... ${selectedCount} entités anonymisées`);
    } catch (error) { ... alert(`❌ ${errorMessage} ...`); }
  };
]]
    As in part_000, [document] is the state variable declared at line 274
    ([const [document, setDocument] = useState(null)]): after an answered
    request [document.createElement('a')] throws, the catch block alerts
    the message of that error, and neither [link.click()] nor the success
    alert is reached. *)
Definition generateDocument
  (server : Payload -> bool) (s : State) : list Effect :=
  if (length (entities s) =? 0)%nat
  then [Alert NoticeNoEntity]
  else
    let selectedCount := length (filter selected (entities s)) in
    if (selectedCount =? 0)%nat
    then [Alert NoticeNoneSelected]
    else
      match document s with
      | None => [Alert NoticeGenerationError]
      | Some d =>
          let payload := mkPayload (entities s) (content d) (output_name d) in
          if server payload
          then (* answered: [document.createElement] throws into the catch block *)
            [PostGenerateDocument payload; Alert NoticeGenerationError]
          else (* the request failed: the catch block *)
            [PostGenerateDocument payload; Alert NoticeGenerationError]
      end.

End Corrected.

(* ===================================================================== *)
(** ** The store operations, by variant *)
(* ===================================================================== *)

(** The two components that implement the whole curation surface. *)
Inductive Variant := CompleteApp | CorrectedApp.

Definition updateEntityReplacement_of (v : Variant) :=
  match v with
  | CompleteApp => Complete.updateEntityReplacement
  | CorrectedApp => Corrected.updateEntityReplacement
  end.

Definition deleteEntity_of (v : Variant) :=
  match v with
  | CompleteApp => Complete.deleteEntity
  | CorrectedApp => Corrected.deleteEntity
  end.

Definition createGroup_of (v : Variant) :=
  match v with
  | CompleteApp => Complete.createGroup
  | CorrectedApp => Corrected.createGroup
  end.

(* ===================================================================== *)
(** ** Spans and the non-overlap invariant *)
(* ===================================================================== *)

(** Two half-open spans overlap when they share an offset. *)
Definition spans_overlap (p q : Position) : bool :=
  Z.max (start p) (start q) <? Z.min (end_ p) (end_ q).

(** Some occurrence of [a] overlaps some occurrence of [b]. *)
Definition entities_overlap (a b : Entity) : bool :=
  existsb (fun p => existsb (spans_overlap p) (positions b)) (positions a).

(** No two entities of [es] that both satisfy [keep] overlap. *)
Fixpoint disjoint_among (keep : Entity -> bool) (es : list Entity) : bool :=
  match es with
  | [] => true
  | e :: r =>
      forallb (fun e' => negb (keep e && keep e' && entities_overlap e e')) r
      && disjoint_among keep r
  end.

(** Invariant 2: the spans of selected entities are pairwise
    non-overlapping, that is, no occurrence of a selected entity overlaps
    an occurrence of another selected entity of the store. *)
Definition SelectedDisjoint (s : State) : Prop :=
  disjoint_among selected (entities s) = true.

(** The stronger property of a freshly reconciled set: the spans of all
    entities, selected or not, are pairwise non-overlapping. *)
Definition AllDisjoint (s : State) : Prop :=
  disjoint_among (fun _ => true) (entities s) = true.

(** The span [[startPos, endPos)] overlaps no occurrence of an entity of
    [es] that satisfies [keep]. *)
Definition span_free (keep : Entity -> bool) (startPos endPos : Z)
  (es : list Entity) : bool :=
  forallb (fun e =>
             negb (keep e
                   && existsb (spans_overlap (mkPosition startPos endPos))
                              (positions e)))
          es.

(** The validation the specification words for addManual:
    [0 <= start < end <= len(document)], [document[start:end] == text] and
    no overlap with any existing entity's positions.  The front end has no
    counterpart of it; it is stated here to compare the handler with. *)
Definition spec_span_valid
  (doc text : jsstring) (startPos endPos : Z) (es : list Entity) : bool :=
  (0 <=? startPos) && (startPos <? endPos)
  && (endPos <=? Z.of_nat (length doc))
  && jsstring_eqb (slice doc startPos endPos) text
  && span_free (fun _ => true) startPos endPos es.

(** [value] neither starts nor ends with white space. *)
Definition trimmed (value : jsstring) : bool :=
  match value with
  | [] => true
  | c :: _ => negb (is_white_space c) && negb (is_white_space (last value c))
  end.

(** [value] is empty or consists of white space only. *)
Definition blank (value : jsstring) : bool := forallb is_white_space value.

(* ===================================================================== *)
(** ** DocumentRewriter *)
(* ===================================================================== *)

Module DocumentRewriter.

(** Modelled from the spec: the [(start, end, replacement)] triple of
    step 1, one per occurrence to substitute. *)
Definition Triple := (Z * Z * jsstring)%type.

Definition t_start (t : Triple) : Z := fst (fst t).
Definition t_end (t : Triple) : Z := snd (fst t).
Definition t_replacement (t : Triple) : jsstring := snd t.

(** Modelled from the spec: step 1 of DocumentRewriter.rewrite (section
    4.5), whose code is in the back end and not under src/: the positions
    of the entities with [selected = true], one triple per occurrence. *)
Definition collect (es : list Entity) : list Triple :=
  flat_map (fun e =>
              if selected e
              then map (fun p => (start p, end_ p, replacement e)) (positions e)
              else [])
           es.

(** Modelled from the spec: step 2, the ascending sort by [start]
    (a stable insertion sort). *)
Fixpoint insert_by_start (t : Triple) (ts : list Triple) : list Triple :=
  match ts with
  | [] => [t]
  | u :: r => if t_start t <? t_start u then t :: ts
              else u :: insert_by_start t r
  end.

(** Modelled from the spec: step 2, the list of triples sorted ascending
    by [start]. *)
Definition sort_by_start (ts : list Triple) : list Triple :=
  fold_right insert_by_start [] ts.

(** Modelled from the spec: step 2, the defensive check that no two
    selected spans overlap. *)
Fixpoint some_overlap (ts : list Triple) : bool :=
  match ts with
  | [] => false
  | t :: r =>
      existsb (fun u => spans_overlap (mkPosition (t_start t) (t_end t))
                                      (mkPosition (t_start u) (t_end u))) r
      || some_overlap r
  end.

(** Modelled from the spec: step 3, one left-to-right pass that copies the
    original text between consecutive spans and writes the replacement for
    each span; [cursor] is the offset already consumed. *)
Fixpoint build (originalText : jsstring) (cursor : Z) (ts : list Triple)
  : jsstring :=
  match ts with
  | [] => skipn (Z.to_nat cursor) originalText
  | t :: r =>
      slice originalText cursor (t_start t) ++ t_replacement t
        ++ build originalText (t_end t) r
  end.

(** Modelled from the spec: the outcome of a rewrite, the anonymized text
    with its change log or the OverlapError of section 7. *)
Inductive Result :=
  | Anonymized (output : jsstring) (changeLog : list (Position * jsstring))
  | OverlapError.

(** Modelled from the spec: DocumentRewriter.rewrite(originalText,
    entities) of section 4.5 (the back end is not under src/): collect,
    sort, fail with OverlapError on overlapping spans, otherwise build the
    text and emit the change log (step 4). *)
Definition rewrite (originalText : jsstring) (es : list Entity) : Result :=
  let ts := sort_by_start (collect es) in
  if some_overlap ts then OverlapError
  else Anonymized (build originalText 0 ts)
                  (map (fun t => (mkPosition (t_start t) (t_end t),
                                  t_replacement t)) ts).

End DocumentRewriter.

(* ===================================================================== *)
(** ** Frame conditions on entities *)
(* ===================================================================== *)

(** [e'] agrees with [e] on every field except possibly [selected]. *)
Definition same_but_selected (e e' : Entity) : Prop :=
  id e' = id e /\ text e' = text e /\ type e' = type e
  /\ source e' = source e /\ confidence e' = confidence e
  /\ positions e' = positions e /\ replacement e' = replacement e.

(** [e'] agrees with [e] on every field except possibly [replacement]. *)
Definition same_but_replacement (e e' : Entity) : Prop :=
  id e' = id e /\ text e' = text e /\ type e' = type e
  /\ source e' = source e /\ confidence e' = confidence e
  /\ positions e' = positions e /\ selected e' = selected e.

(* ===================================================================== *)
(** ** The grouping ticks *)
(* ===================================================================== *)

(** The second checkbox of an entity card (src/unnamed/part_000:565-577,
    the same in the corrected component):
[[
  checked={selectedEntities.includes(entity.id)}
  onChange={(e) => {
    if (e.target.checked) {
      setSelectedEntities([...selectedEntities, entity.id]);
    } else {
      setSelectedEntities(selectedEntities.filter(id => id !== entity.id));
    }
  }}
]]
    [checked] is [e.target.checked], the value the box takes. *)
Definition tickEntity (checked : bool) (entityId : jsstring) (s : State)
  : State :=
  if checked
  then setSelectedEntities (selectedEntities s ++ [entityId]) s
  else setSelectedEntities
         (filter (fun i => negb (jsstring_eqb i entityId)) (selectedEntities s))
         s.

(** A click on that box: the box is controlled, it shows
    [selectedEntities.includes(entity.id)] and the event carries the
    opposite value. *)
Definition clickTick (entityId : jsstring) (s : State) : State :=
  tickEntity (negb (includes (selectedEntities s) entityId)) entityId s.

(** Every ticked id is the id of an entity of the store. *)
Definition TicksInStore (s : State) : Prop :=
  forall i, In i (selectedEntities s) -> In i (map id (entities s)).

(** No two entities of the store carry the same id. *)
Definition IdsUnique (s : State) : Prop := NoDup (map id (entities s)).

(** Invariant 3 of the data model, as the corrected guards enforce it:
    no entity has an empty or white-space-only replacement. *)
Definition ReplacementsFilled (s : State) : Prop :=
  Forall (fun e => blank (replacement e) = false) (entities s).

(* ===================================================================== *)
(** ** Statistics and the displayed list *)
(* ===================================================================== *)

(** [a === b] on source tags. *)
Definition source_eqb (a b : Source) : bool :=
  match a, b with
  | REGEX, REGEX | NER, NER | OLLAMA, OLLAMA | MANUAL, MANUAL => true
  | _, _ => false
  end.

Module Stats.
Record t := mk {
  total : nat; regex : nat; ner : nat; ollama : nat; manual : nat;
  selected : nat
}.
End Stats.

(** [[
  const stats = {
    total: entities.length,
    regex: entities.filter(e => e.source === 'REGEX').length,
    ner: entities.filter(e => e.source === 'NER').length,
    ollama: entities.filter(e => e.source === 'OLLAMA').length,
    manual: entities.filter(e => e.source === 'MANUAL').length,
    selected: entities.filter(e => e.selected).length
  };
]] *)
Definition stats (s : State) : Stats.t :=
  let count f := length (filter f (entities s)) in
  Stats.mk (length (entities s))
           (count (fun e => source_eqb (source e) REGEX))
           (count (fun e => source_eqb (source e) NER))
           (count (fun e => source_eqb (source e) OLLAMA))
           (count (fun e => source_eqb (source e) MANUAL))
           (count selected).

(** [t] is a prefix of [s]. *)
Fixpoint starts_with (t s : jsstring) : bool :=
  match t, s with
  | [], _ => true
  | _ :: _, [] => false
  | a :: t', b :: s' => N.eqb a b && starts_with t' s'
  end.

(** [s.includes(t)]: [t] occurs in [s]. *)
Fixpoint str_includes (s t : jsstring) : bool :=
  starts_with t s
  || match s with
     | [] => false
     | _ :: r => str_includes r t
     end.

(** The value of the source select box: 'all' or a source tag. *)
Inductive SourceFilter := AllSources | Only (src : Source).

(** [sourceFilter === 'all' || entity.source === sourceFilter] *)
Definition matchesFilter (sourceFilter : SourceFilter) (entity : Entity)
  : bool :=
  match sourceFilter with
  | AllSources => true
  | Only src => source_eqb (source entity) src
  end.

(** The wire form of the [type] tag, which the corrected search reads. *)
Definition type_tag (t : EntityType) : jsstring :=
  match t with
  | person => [112; 101; 114; 115; 111; 110]
  | organization => [111; 114; 103; 97; 110; 105; 122; 97; 116; 105; 111; 110]
  | phone => [112; 104; 111; 110; 101]
  | email => [101; 109; 97; 105; 108]
  | address => [97; 100; 100; 114; 101; 115; 115]
  | legal => [108; 101; 103; 97; 108]
  | siret => [115; 105; 114; 101; 116]
  | ssn => [115; 115; 110]
  end%N.

Section Search.

(** [String.prototype.toLowerCase], the case mapping of the engine. *)
Variable toLowerCase : jsstring -> jsstring.

(** src/unnamed/part_000:169-174:
[[
  const filteredEntities = entities.filter(entity => {
    const matchesSearch =
      entity.text.toLowerCase().includes(searchTerm.toLowerCase()) ||
      entity.replacement.toLowerCase().includes(searchTerm.toLowerCase());
    const matchesFilter = sourceFilter === 'all' || entity.source === sourceFilter;
    return matchesSearch && matchesFilter;
  });
]] *)
Definition Complete_filteredEntities
  (searchTerm : jsstring) (sourceFilter : SourceFilter) (s : State)
  : list Entity :=
  filter (fun entity =>
            (str_includes (toLowerCase (text entity)) (toLowerCase searchTerm)
             || str_includes (toLowerCase (replacement entity))
                             (toLowerCase searchTerm))
            && matchesFilter sourceFilter entity)
         (entities s).

(** src/installation_guide.md:548-555:
[[
  const filteredEntities = entities.filter(entity => {
    const searchLower = searchTerm.toLowerCase();
    const matchesSearch = entity.text.toLowerCase().includes(searchLower) ||
                         entity.replacement.toLowerCase().includes(searchLower) ||
                         entity.type.toLowerCase().includes(searchLower);
    const matchesFilter = sourceFilter === 'all' || entity.source === sourceFilter;
    return matchesSearch && matchesFilter;
  });
]] *)
Definition Corrected_filteredEntities
  (searchTerm : jsstring) (sourceFilter : SourceFilter) (s : State)
  : list Entity :=
  filter (fun entity =>
            let searchLower := toLowerCase searchTerm in
            (str_includes (toLowerCase (text entity)) searchLower
             || str_includes (toLowerCase (replacement entity)) searchLower
             || str_includes (toLowerCase (type_tag (type entity))) searchLower)
            && matchesFilter sourceFilter entity)
         (entities s).

End Search.

(** Lower-casing of the letters A-Z, what [toLowerCase] does on ASCII
    text; used to run the search on samples. *)
Definition ascii_lower (s : jsstring) : jsstring :=
  map (fun c => if (65 <=? c)%N && (c <=? 90)%N then (c + 32)%N else c) s.

(* ===================================================================== *)
(** ** Uploading a document (corrected component) *)
(* ===================================================================== *)

Module Upload.

Inductive Page := upload | dashboard.

Inductive Mode := standard | advanced | ollama.

(** The answer of [/health]. *)
Record SystemStatus := mkSystemStatus {
  spacy_available : bool;
  ollama_available : bool
}.

(** The state of the component beside the store: the spinner flag, the
    page shown, the processing mode and the status of the back end. *)
Record Session := mkSession {
  app : State;
  processing : bool;           (* useState(false) *)
  currentPage : Page;          (* useState('upload') *)
  currentMode : Mode;          (* useState('standard') *)
  systemStatus : SystemStatus  (* useState({ spacy_available: false, ... }) *)
}.

(** A dropped file: its name, its size in bytes, and what the
    [FileReader] delivers, the text ([onload]) or nothing ([onerror]). *)
Record File := mkFile {
  name : jsstring;
  size : N;
  read : option jsstring
}.

(** The body of the POST to [/process]. *)
Record Request := mkRequest {
  req_content : jsstring;
  req_filename : jsstring;
  req_mode : Mode
}.

(** [response.data]: [entities] may be missing. *)
Record Data := mkData {
  data_entities : option (list Entity);
  total_occurrences : N
}.

(** The error object of a failed request: [error.code],
    [error.response?.status], [error.response?.data?.detail] and
    [error.message]. *)
Record HttpError := mkHttpError {
  code : option jsstring;
  status : option N;
  detail : option jsstring;
  message : jsstring
}.

Inductive Outcome := Answered (data : Data) | Failed (error : HttpError).

(** The [errorMessage] of the catch block. *)
Inductive ErrorMessage :=
  | Timeout                        (* 'Timeout - Le traitement a pris trop de temps (>60s)...' *)
  | ServerError (d : option jsstring)
                                   (* `Erreur serveur: ${detail || 'Erreur interne'}` *)
  | InvalidFormat                  (* 'Format de données invalide...' *)
  | NoConnection                   (* 'Impossible de se connecter au backend...' *)
  | Verbatim (m : jsstring)        (* the detail or the message of the error *)
  | Unknown.                       (* 'Erreur inconnue' *)

Inductive Notice :=
  | BackendUnreachable             (* 'Impossible de se connecter au backend...' *)
  | FileTooLarge                   (* 'Fichier trop volumineux. Taille maximum : 50MB' *)
  | FileEmpty                      (* 'Fichier vide ou illisible' *)
  | FileUnreadable                 (* 'Erreur lors de la lecture du fichier...' *)
  | NothingDetected                (* 'Analyse terminée ! Aucune entité détectée ...' *)
  | Processed (total : N) (byRegex byNer : nat)
                                   (* 'Document traité avec succès ! ...' *)
  | ProcessingError (m : ErrorMessage).

Inductive Effect :=
  | Alert (n : Notice)
  | PostProcess (r : Request).

Definition ECONNABORTED : jsstring :=
  [69; 67; 79; 78; 78; 65; 66; 79; 82; 84; 69; 68]%N.
Definition ECONNREFUSED : jsstring :=
  [69; 67; 79; 78; 78; 82; 69; 70; 85; 83; 69; 68]%N.
Definition Network_Error : jsstring :=
  [78; 101; 116; 119; 111; 114; 107; 32; 69; 114; 114; 111; 114]%N.

(** [error.code === c] *)
Definition code_is (c : jsstring) (error : HttpError) : bool :=
  match code error with
  | Some x => jsstring_eqb x c
  | None => false
  end.

(** [error.response?.status === n] *)
Definition status_is (n : N) (error : HttpError) : bool :=
  match status error with
  | Some x => N.eqb x n
  | None => false
  end.

(** Truthiness of [error.response?.data?.detail]. *)
Definition truthy_detail (error : HttpError) : option jsstring :=
  match detail error with
  | Some d => if truthy d then Some d else None
  | None => None
  end.

(** [[
  let errorMessage = 'Erreur inconnue';
  if (error.code === 'ECONNABORTED') { errorMessage = 'Timeout ...'; }
  else if (error.response?.status === 500) {
    errorMessage = `Erreur serveur: ${error.response?.data?.detail || 'Erreur interne'}`; }
  else if (error.response?.status === 422) { errorMessage = 'Format de données invalide...'; }
  else if (error.code === 'ECONNREFUSED' || error.message.includes('Network Error')) {
    errorMessage = 'Impossible de se connecter au backend...'; }
  else if (error.response?.data?.detail) { errorMessage = error.response.data.detail; }
  else if (error.message) { errorMessage = error.message; }
]] *)
Definition errorMessage (error : HttpError) : ErrorMessage :=
  if code_is ECONNABORTED error then Timeout
  else if status_is 500 error then ServerError (truthy_detail error)
  else if status_is 422 error then InvalidFormat
  else if code_is ECONNREFUSED error
          || str_includes (message error) Network_Error then NoConnection
  else match truthy_detail error with
       | Some d => Verbatim d
       | None => if truthy (message error) then Verbatim (message error)
                 else Unknown
       end.

Definition setApp (a : State) (s : Session) : Session :=
  mkSession a (processing s) (currentPage s) (currentMode s) (systemStatus s).

Definition setProcessing (b : bool) (s : Session) : Session :=
  mkSession (app s) b (currentPage s) (currentMode s) (systemStatus s).

Definition setCurrentPage (p : Page) (s : Session) : Session :=
  mkSession (app s) (processing s) p (currentMode s) (systemStatus s).

Definition setCurrentMode (m : Mode) (s : Session) : Session :=
  mkSession (app s) (processing s) (currentPage s) m (systemStatus s).

Definition setSystemStatus (st : SystemStatus) (s : Session) : Session :=
  mkSession (app s) (processing s) (currentPage s) (currentMode s) st.

(** [50 * 1024 * 1024] *)
Definition max_size : N := 50 * 1024 * 1024.

(** src/installation_guide.md:313-419:
[[
  const onDrop = useCallback(async (acceptedFiles) => {
    if (acceptedFiles.length === 0) return;
    const file = acceptedFiles[0];
    if (file.size > 50 * 1024 * 1024) { alert('❌ Fichier trop volumineux...'); return; }
    const reader = new FileReader();
    reader.onload = async (event) => {
      const content = event.target.result;
      if (!content || content.trim().length === 0) { alert('❌ Fichier vide ou illisible'); return; }
      setDocument({ filename: file.name, content });
      setProcessing(true);
      setEntities([]); // Reset entities
      try {
        const payload = { content: content.trim(), filename: file.name, mode: currentMode };
        const response = await axios.post(`${API}/process`, payload, ...);
        const responseEntities = response.data.entities || [];
        setEntities(responseEntities);
        if (responseEntities.length === 0) { alert(`... Aucune entité détectée ...`); }
        else { alert(`✅ Document traité avec succès ! ...`); setCurrentPage('dashboard'); }
      } catch (error) { ... alert(`❌ Erreur lors du traitement : ${errorMessage} ...`); }
      finally { setProcessing(false); }
    };
    reader.onerror = () => { alert('❌ Erreur lors de la lecture du fichier...'); setProcessing(false); };
    reader.readAsText(file, 'UTF-8');
  }, [currentMode]);
]]
    [server r] is the fate of the request with body [r]. *)
Definition onDrop
  (acceptedFiles : list File) (server : Request -> Outcome) (s : Session)
  : Session * list Effect :=
  match acceptedFiles with
  | [] => (s, [])
  | file :: _ =>
      if (max_size <? size file)%N then (s, [Alert FileTooLarge])
      else
        match read file with
        | None => (setProcessing false s, [Alert FileUnreadable])
        | Some content =>
            if negb (truthy content) || (length (trim content) =? 0)%nat
            then (s, [Alert FileEmpty])
            else
              let payload :=
                mkRequest (trim content) (name file) (currentMode s) in
              let loaded es :=
                mkState (Some (mkDocument (name file) content)) es
                        (selectedEntities (app s)) in
              match server payload with
              | Answered data =>
                  let responseEntities :=
                    match data_entities data with
                    | Some es => es
                    | None => []
                    end in
                  if (length responseEntities =? 0)%nat
                  then (setProcessing false (setApp (loaded responseEntities) s),
                        [PostProcess payload; Alert NothingDetected])
                  else (setCurrentPage dashboard
                          (setProcessing false
                             (setApp (loaded responseEntities) s)),
                        [PostProcess payload;
                         Alert (Processed (total_occurrences data)
                                  (length (filter
                                     (fun e => source_eqb (source e) REGEX)
                                     responseEntities))
                                  (length (filter
                                     (fun e => source_eqb (source e) NER)
                                     responseEntities)))])
              | Failed error =>
                  (setProcessing false (setApp (loaded []) s),
                   [PostProcess payload;
                    Alert (ProcessingError (errorMessage error))])
              end
        end
  end.

(** src/installation_guide.md:285-311, the effect run once on load:
[[
  const checkStatus = async () => {
    try {
      const response = await axios.get(`${API}/health`, { timeout: 10000 });
      setSystemStatus(response.data);
    } catch (error) {
      setSystemStatus({ spacy_available: false, ollama_available: false });
      if (error.code === 'ECONNREFUSED' || error.message.includes('Network Error')) {
        alert('⚠️ Impossible de se connecter au backend...');
      }
    }
  };
]]
    [answer] is the fate of the request. *)
Definition checkStatus (answer : SystemStatus + HttpError) (s : Session)
  : Session * list Effect :=
  match answer with
  | inl data => (setSystemStatus data s, [])
  | inr error =>
      (setSystemStatus (mkSystemStatus false false) s,
       if code_is ECONNREFUSED error
          || str_includes (message error) Network_Error
       then [Alert BackendUnreachable] else [])
  end.

(** The card of the standard mode: [onClick={() => setCurrentMode('standard')}]. *)
Definition clickStandard (s : Session) : Session := setCurrentMode standard s.

(** The card of the advanced mode:
    [onClick={() => systemStatus.spacy_available && setCurrentMode('advanced')}]. *)
Definition clickAdvanced (s : Session) : Session :=
  if spacy_available (systemStatus s) then setCurrentMode advanced s else s.

(** The button "Nouveau document" of the dashboard
    (src/installation_guide.md:795-799):
[[
  onClick={() => { setCurrentPage('upload'); setEntities([]); setDocument(null); }}
]] *)
Definition newDocument (s : Session) : Session :=
  setCurrentPage upload
    (setApp (mkState None [] (selectedEntities (app s))) s).

(** What can happen to the corrected component: the answer of the status
    check, a click or a drop, each with what the browser and the back end
    answer. *)
Inductive Event :=
  | StatusChecked (answer : SystemStatus + HttpError)
  | StandardClicked
  | AdvancedClicked
  | Dropped (acceptedFiles : list File) (server : Request -> Outcome)
  | NewDocumentClicked
  | EntityToggled (entityId : jsstring)
  | ReplacementEdited (entityId value : jsstring)
  | DeleteClicked (entityId : jsstring) (confirmed : bool)
  | GroupClicked (answer : option jsstring)
  | SelectAllClicked
  | TickClicked (entityId : jsstring)
  | GenerateClicked.

(** The handler an event runs, on the state. *)
Definition step (s : Session) (e : Event) : Session :=
  match e with
  | StatusChecked answer => fst (checkStatus answer s)
  | StandardClicked => clickStandard s
  | AdvancedClicked => clickAdvanced s
  | Dropped acceptedFiles server => fst (onDrop acceptedFiles server s)
  | NewDocumentClicked => newDocument s
  | EntityToggled entityId => setApp (toggleEntity entityId (app s)) s
  | ReplacementEdited entityId value =>
      setApp (fst (Corrected.updateEntityReplacement entityId value (app s))) s
  | DeleteClicked entityId confirmed =>
      setApp (fst (Corrected.deleteEntity entityId confirmed (app s))) s
  | GroupClicked answer =>
      setApp (fst (Corrected.createGroup answer (app s))) s
  | SelectAllClicked => setApp (selectAll (app s)) s
  | TickClicked entityId => setApp (clickTick entityId (app s)) s
  | GenerateClicked => s
  end.

(** The initial values of the [useState] calls. *)
Definition initial : Session :=
  mkSession (mkState None [] []) false upload standard
            (mkSystemStatus false false).

(** The state after a sequence of events, from the first render on. *)
Definition run (events : list Event) : Session := fold_left step events initial.

(** What holds of the state once a handler has run to its end. *)
Definition Settled (s : Session) : Prop :=
  currentMode s <> ollama
  /\ processing s = false
  /\ (currentPage s = dashboard -> document (app s) <> None)
  /\ (document (app s) = None -> entities (app s) = []).

End Upload.

(* ===================================================================== *)
(** ** Sample data *)
(* ===================================================================== *)

(** "abcdefgh" *)
Definition sample_text : jsstring := [97; 98; 99; 100; 101; 102; 103; 104]%N.

Definition sample_document : Document :=
  mkDocument [100; 46; 116; 120; 116]%N sample_text.   (* "d.txt" *)

(** An entity covering "abcde", id "1". *)
Definition entity_a (sel : bool) : Entity :=
  mkEntity [49]%N [97; 98; 99; 100; 101]%N person NER (9 # 10)
           [80]%N [mkPosition 0 5] sel.

(** An entity covering "defgh", id "2": it overlaps [entity_a] on "de". *)
Definition entity_b (sel : bool) : Entity :=
  mkEntity [50]%N [100; 101; 102; 103; 104]%N organization NER (8 # 10)
           [79]%N [mkPosition 3 8] sel.

(** An entity covering "fgh", id "3": disjoint from [entity_a]. *)
Definition entity_c (sel : bool) : Entity :=
  mkEntity [51]%N [102; 103; 104]%N phone REGEX 1
           [84]%N [mkPosition 5 8] sel.

Definition store (es : list Entity) (ids : list jsstring) : State :=
  mkState (Some sample_document) es ids.

(** The upload page with a store left from an earlier document. *)
Definition sample_session : Upload.Session :=
  Upload.mkSession (store [entity_a true] [[49]%N]) false
                   Upload.upload Upload.standard
                   (Upload.mkSystemStatus true false).

(** A file "d.txt" of 8 bytes that reads as [content]. *)
Definition sample_file (content : jsstring) : Upload.File :=
  Upload.mkFile [100; 46; 116; 120; 116]%N 8 (Some content).

(** A back end that detects one phone number. *)
Definition sample_server (r : Upload.Request) : Upload.Outcome :=
  Upload.Answered (Upload.mkData (Some [entity_c true]) 1).

(* ===================================================================== *)
(** * Properties *)
(* ===================================================================== *)

(** ** Strings *)

Lemma jsstring_eqb_eq (a b : jsstring) : jsstring_eqb a b = true <-> a = b.
Proof.
  unfold jsstring_eqb. destruct (list_eq_dec N.eq_dec a b); split;
    intros; congruence.
Qed.

Lemma jsstring_eqb_neq (a b : jsstring) : jsstring_eqb a b = false <-> a <> b.
Proof.
  unfold jsstring_eqb. destruct (list_eq_dec N.eq_dec a b); split;
    intros; congruence.
Qed.

Lemma jsstring_eqb_refl (a : jsstring) : jsstring_eqb a a = true.
Proof. now apply jsstring_eqb_eq. Qed.

Lemma trimStart_blank (s : jsstring) : blank s = true -> trimStart s = [].
Proof.
  induction s as [|c r IH]; simpl; [reflexivity|].
  intros H. apply andb_true_iff in H as [Hc Hr]. rewrite Hc. auto.
Qed.

Lemma trimStart_not_blank (s : jsstring) :
  blank s = false ->
  exists c r, trimStart s = c :: r /\ is_white_space c = false.
Proof.
  induction s as [|c r IH]; simpl; [discriminate|].
  destruct (is_white_space c) eqn:Hc; simpl.
  - exact IH.
  - intros _. exists c, r. rewrite Hc. auto.
Qed.

Lemma trimStart_app_solid (s : jsstring) (c : N) (r : jsstring) :
  is_white_space c = false ->
  exists t, trimStart (s ++ c :: r) = t ++ c :: r.
Proof.
  intros Hc. induction s as [|d s IH]; simpl.
  - rewrite Hc. now exists [].
  - destruct (is_white_space d).
    + exact IH.
    + now exists (d :: s).
Qed.

(** [value.trim() === ''] holds exactly for an empty or white-space-only
    [value]. *)
Lemma trim_empty_iff_blank (value : jsstring) :
  jsstring_eqb (trim value) [] = blank value.
Proof.
  destruct (blank value) eqn:Hb.
  - apply jsstring_eqb_eq. unfold trim, trimEnd.
    now rewrite (trimStart_blank _ Hb).
  - apply jsstring_eqb_neq. unfold trim, trimEnd.
    destruct (trimStart_not_blank _ Hb) as (c & r & -> & Hc).
    simpl rev.
    destruct (@trimStart_app_solid (rev r) c [] Hc) as [t ->].
    rewrite rev_app_distr. simpl. discriminate.
Qed.

Lemma truthy_false_blank (value : jsstring) :
  truthy value = false -> blank value = true.
Proof. destruct value; [reflexivity | discriminate]. Qed.

(** The guard of the corrected updateEntityReplacement fires exactly on
    blank values. *)
Lemma guard_is_blank (value : jsstring) :
  negb (truthy value) || jsstring_eqb (trim value) [] = blank value.
Proof.
  rewrite trim_empty_iff_blank.
  destruct (truthy value) eqn:Ht; simpl; [reflexivity|].
  symmetry. now apply truthy_false_blank.
Qed.

(** The guard of the corrected createGroup passes exactly on values that
    are not blank. *)
Lemma group_guard_is_not_blank (value : jsstring) :
  truthy value && truthy (trim value) = negb (blank value).
Proof.
  rewrite <- trim_empty_iff_blank.
  destruct value as [|c r]; [reflexivity|].
  cbn [truthy andb]. destruct (trim (c :: r)); reflexivity.
Qed.

Lemma trim_trimmed (value : jsstring) : trimmed value = true -> trim value = value.
Proof.
  destruct value as [|c r]; [reflexivity|].
  unfold trimmed. intros H. apply andb_true_iff in H as [Hc Hl].
  apply negb_true_iff in Hc, Hl.
  unfold trim, trimEnd. cbn [trimStart]. rewrite Hc.
  assert (Hne : c :: r <> []) by discriminate.
  rewrite (app_removelast_last c Hne) at 1.
  rewrite rev_app_distr. cbn [rev app trimStart]. rewrite Hl.
  change (last (c :: r) c :: rev (removelast (c :: r)))
    with (rev [last (c :: r) c] ++ rev (removelast (c :: r))).
  rewrite <- rev_app_distr, rev_involutive.
  symmetry. now apply app_removelast_last.
Qed.

Lemma trimmed_nonempty_not_blank (value : jsstring) :
  trimmed value = true -> truthy value = true -> blank value = false.
Proof.
  destruct value as [|c r]; [discriminate|].
  unfold trimmed. intros H _. apply andb_true_iff in H as [Hc _].
  apply negb_true_iff in Hc. simpl. now rewrite Hc.
Qed.

(** ** Overlap *)

Lemma spans_overlap_sym (p q : Position) : spans_overlap p q = spans_overlap q p.
Proof. unfold spans_overlap. now rewrite Z.max_comm, Z.min_comm. Qed.

(** Two spans overlap exactly when some offset lies in both. *)
Lemma spans_overlap_spec (p q : Position) :
  spans_overlap p q = true <->
  exists x, start p <= x < end_ p /\ start q <= x < end_ q.
Proof.
  unfold spans_overlap. rewrite Z.ltb_lt. split.
  - intros H. exists (Z.max (start p) (start q)). lia.
  - intros (x & Hp & Hq). lia.
Qed.

Section DisjointAmong.

Variable keep : Entity -> bool.

(** [disjoint_among] says what its name promises: any two entities at
    distinct places of the list that both satisfy [keep] do not overlap. *)
Lemma disjoint_among_spec (es : list Entity) :
  disjoint_among keep es = true <->
  forall i j a b, (i < j)%nat ->
    nth_error es i = Some a -> nth_error es j = Some b ->
    keep a = true -> keep b = true -> entities_overlap a b = false.
Proof.
  induction es as [|e r IH]; simpl.
  - split; [|reflexivity]. intros _ i j a b _ Hi. destruct i; discriminate.
  - rewrite andb_true_iff, forallb_forall, IH. split.
    + intros [Hhd Htl] i j a b Hij Hi Hj Ka Kb.
      destruct j as [|j]; [lia|]. simpl in Hj. destruct i as [|i]; simpl in Hi.
      * injection Hi as <-. apply nth_error_In in Hj.
        specialize (Hhd b Hj). rewrite Ka, Kb in Hhd. simpl in Hhd.
        now apply negb_true_iff in Hhd.
      * apply (Htl i j a b); auto. lia.
    + intros H. split.
      * intros b Hb. apply In_nth_error in Hb as [j Hj].
        destruct (keep e) eqn:Ke; [|reflexivity].
        destruct (keep b) eqn:Kb; [|reflexivity]. simpl.
        apply negb_true_iff. apply (H 0%nat (S j) e b); auto. lia.
      * intros i j a b Hij Hi Hj. apply (H (S i) (S j) a b); auto. lia.
Qed.

Lemma disjoint_among_map (f : Entity -> Entity) (es : list Entity) :
  (forall e, positions (f e) = positions e) ->
  (forall e, keep (f e) = keep e) ->
  disjoint_among keep (map f es) = disjoint_among keep es.
Proof.
  intros Hp Hk. induction es as [|e r IH]; simpl; [reflexivity|].
  rewrite IH. f_equal. clear IH.
  induction r as [|e' r IH]; simpl; [reflexivity|].
  rewrite IH. unfold entities_overlap. now rewrite !Hp, !Hk.
Qed.

Lemma disjoint_among_filter (g : Entity -> bool) (es : list Entity) :
  disjoint_among keep es = true -> disjoint_among keep (filter g es) = true.
Proof.
  induction es as [|e r IH]; simpl; [reflexivity|].
  intros H. apply andb_true_iff in H as [Hhd Htl].
  destruct (g e); simpl; auto.
  rewrite IH by assumption. rewrite andb_true_r.
  rewrite forallb_forall in *. intros x Hx. apply Hhd.
  now apply filter_In in Hx.
Qed.

Lemma disjoint_among_snoc (es : list Entity) (n : Entity) :
  disjoint_among keep (es ++ [n]) =
  disjoint_among keep es
  && forallb (fun e => negb (keep e && keep n && entities_overlap e n)) es.
Proof.
  induction es as [|e r IH]; simpl; [reflexivity|].
  rewrite IH, forallb_app. simpl. rewrite andb_true_r. btauto.
Qed.

(** Non-overlap of all entities gives non-overlap of the kept ones. *)
Lemma disjoint_among_all (es : list Entity) :
  disjoint_among (fun _ => true) es = true -> disjoint_among keep es = true.
Proof.
  induction es as [|e r IH]; simpl; [reflexivity|].
  intros H. apply andb_true_iff in H as [Hhd Htl].
  rewrite IH by assumption. rewrite andb_true_r.
  rewrite forallb_forall in *. intros x Hx. specialize (Hhd x Hx).
  simpl in Hhd. apply negb_true_iff in Hhd. rewrite Hhd.
  now rewrite andb_false_r.
Qed.

End DisjointAmong.

(** ** Selection *)

Lemma toggle_one_other (entityId : jsstring) (e : Entity) :
  id e <> entityId -> toggle_one entityId e = e.
Proof.
  intros H. unfold toggle_one. apply jsstring_eqb_neq in H. now rewrite H.
Qed.

Lemma toggle_one_same (entityId : jsstring) (e : Entity) :
  id e = entityId ->
  toggle_one entityId e = with_selected (negb (selected e)) e.
Proof.
  intros H. unfold toggle_one. apply jsstring_eqb_eq in H. now rewrite H.
Qed.

Lemma toggle_one_frame (entityId : jsstring) (e : Entity) :
  same_but_selected e (toggle_one entityId e).
Proof.
  unfold toggle_one, same_but_selected.
  destruct (jsstring_eqb (id e) entityId); simpl; repeat split.
Qed.

Example toggleEntity_runs :
  entities (toggleEntity [50]%N
              (store [entity_a true; entity_b false; entity_c true] []))
  = [entity_a true; entity_b true; entity_c true]
  /\ entities (toggleEntity [49]%N (store [entity_a true; entity_b false] []))
     = [entity_a false; entity_b false]
  /\ toggleEntity [57]%N (store [entity_a true] []) = store [entity_a true] [].
Proof. repeat split. Qed.

Example selectAll_runs :
  entities (selectAll (store [entity_a true; entity_c false] []))
  = [entity_a true; entity_c true]
  /\ entities (selectAll (store [entity_a true; entity_c true] []))
     = [entity_a false; entity_c false]
  /\ entities (selectAll (store [] [])) = [].
Proof. repeat split. Qed.

(** C8: toggleSelection(id) flips the [selected] flag of the entity with
    that id and changes nothing else.  Entity by entity, in the order of
    the store: an entity with another id is returned as it is; an entity
    with that id has [selected] negated and keeps its id, text, type,
    source, confidence, positions (the span geometry) and replacement.
    The document and the grouping ticks are untouched. *)
Theorem toggleEntity_flips_selected_only (entityId : jsstring) (s : State) :
  document (toggleEntity entityId s) = document s
  /\ selectedEntities (toggleEntity entityId s) = selectedEntities s
  /\ Forall2
       (fun e e' =>
          same_but_selected e e'
          /\ (id e = entityId -> selected e' = negb (selected e))
          /\ (id e <> entityId -> e' = e))
       (entities s) (entities (toggleEntity entityId s)).
Proof.
  repeat split. simpl.
  induction (entities s) as [|e r IH]; simpl; constructor; auto.
  split; [apply toggle_one_frame|]. split; intros H.
  - now rewrite toggle_one_same.
  - now apply toggle_one_other.
Qed.

(** C10: the select-all control gives every entity the same [selected]
    value, false if every entity was selected and true otherwise, and
    changes no other field; afterwards all entities are selected or none
    is. *)
Theorem selectAll_uniform (s : State) :
  let v := negb (forallb selected (entities s)) in
  Forall2 (fun e e' => same_but_selected e e' /\ selected e' = v)
          (entities s) (entities (selectAll s))
  /\ (v = false <-> Forall (fun e => selected e = true) (entities s))
  /\ (Forall (fun e => selected e = true) (entities (selectAll s))
      \/ Forall (fun e => selected e = false) (entities (selectAll s))).
Proof.
  unfold selectAll. simpl.
  set (v := negb (forallb selected (entities s))).
  assert (HF : forall l,
             Forall2 (fun e e' => same_but_selected e e' /\ selected e' = v)
                     l (map (with_selected v) l)).
  { induction l; simpl; constructor; auto.
    unfold same_but_selected; simpl; repeat split. }
  assert (HU : forall l, Forall (fun e => selected e = v)
                                (map (with_selected v) l)).
  { induction l; simpl; constructor; auto. }
  split; [apply HF|]. split.
  - unfold v. rewrite negb_false_iff, forallb_forall, Forall_forall. tauto.
  - destruct v; [left | right]; apply HU.
Qed.

(** ** Replacement edits *)

Section ReplaceWhere.

Variables (hit : Entity -> bool) (value : jsstring).

(** What both [map]s that write a replacement do, entity by entity. *)
Lemma replace_where_frame (es : list Entity) :
  Forall2
    (fun e e' =>
       same_but_replacement e e'
       /\ (hit e = true -> replacement e' = value)
       /\ (hit e = false -> e' = e))
    es
    (map (fun e => if hit e then with_replacement value e else e) es).
Proof.
  induction es as [|e r IH]; simpl; constructor; auto.
  unfold same_but_replacement.
  destruct (hit e); simpl; repeat split; congruence.
Qed.

Lemma replace_where_ids (es : list Entity) :
  map id (map (fun e => if hit e then with_replacement value e else e) es)
  = map id es.
Proof.
  induction es as [|e r IH]; simpl; [reflexivity|].
  rewrite IH. now destruct (hit e).
Qed.

Lemma replace_where_disjoint (keep : Entity -> bool) (es : list Entity) :
  (forall e v, keep (with_replacement v e) = keep e) ->
  disjoint_among keep
    (map (fun e => if hit e then with_replacement value e else e) es)
  = disjoint_among keep es.
Proof.
  intros Hk. apply disjoint_among_map; intros e; destruct (hit e); auto.
Qed.

End ReplaceWhere.

(** The corrected updateEntityReplacement: a blank value is refused with
    an alert and nothing changes; any other value is stored trimmed on the
    entities with that id, every other field and entity left as it was. *)
Lemma Corrected_updateEntityReplacement_guarded
  (entityId value : jsstring) (s : State) :
  let r := Corrected.updateEntityReplacement entityId value s in
  (blank value = true -> r = (s, [Alert NoticeEmptyReplacement]))
  /\ (blank value = false ->
      snd r = []
      /\ document (fst r) = document s
      /\ selectedEntities (fst r) = selectedEntities s
      /\ Forall2
           (fun e e' =>
              same_but_replacement e e'
              /\ (id e = entityId -> replacement e' = trim value)
              /\ (id e <> entityId -> e' = e))
           (entities s) (entities (fst r))).
Proof.
  unfold Corrected.updateEntityReplacement. rewrite guard_is_blank.
  split; intros Hb; rewrite Hb; [reflexivity|]. simpl. repeat split.
  eapply Forall2_impl;
    [| apply (replace_where_frame
                (fun e => jsstring_eqb (id e) entityId) (trim value))].
  intros e e' (Hf & Hy & Hn). split; [exact Hf|]. split; intros H.
  - apply Hy. now apply jsstring_eqb_eq.
  - apply Hn. now apply jsstring_eqb_neq.
Qed.

(** C3, the defect: the updateEntityReplacement of src/unnamed/part_000
    has no guard.  Called with the empty string on a store holding the
    entity of id "1", it shows no alert and stores the empty replacement,
    where the corrected component refuses the edit. *)
Theorem Complete_updateEntityReplacement_accepts_empty :
  Complete.updateEntityReplacement [49%N] [] (store [entity_a true] [])
  = (store [with_replacement [] (entity_a true)] [], [])
  /\ replacement (with_replacement [] (entity_a true)) = []
  /\ Corrected.updateEntityReplacement [49%N] [] (store [entity_a true] [])
     = (store [entity_a true] [], [Alert NoticeEmptyReplacement]).
Proof. repeat split. Qed.

(** ** Grouping *)

Lemma createGroup_too_small (v : Variant) (answer : option jsstring) (s : State) :
  (length (selectedEntities s) < 2)%nat ->
  createGroup_of v answer s = (s, [Alert NoticeGroupTooSmall]).
Proof.
  intros H. apply Nat.ltb_lt in H.
  destruct v; simpl; unfold Complete.createGroup, Corrected.createGroup;
    now rewrite H.
Qed.

Lemma createGroup_empty_answer (v : Variant) (s : State) :
  (2 <= length (selectedEntities s))%nat ->
  createGroup_of v (Some []) s = (s, [])
  /\ createGroup_of v None s = (s, []).
Proof.
  intros H. apply Nat.ltb_ge in H.
  destruct v; simpl; unfold Complete.createGroup, Corrected.createGroup;
    now rewrite H.
Qed.

(** The corrected createGroup stores the trimmed answer, and treats an
    answer of white space only like a cancelled prompt. *)
Lemma Corrected_createGroup_trims (shared : jsstring) (s : State) :
  (2 <= length (selectedEntities s))%nat ->
  let r := Corrected.createGroup (Some shared) s in
  (blank shared = true -> r = (s, []))
  /\ (blank shared = false ->
      Forall2
        (fun e e' =>
           same_but_replacement e e'
           /\ (includes (selectedEntities s) (id e) = true ->
               replacement e' = trim shared)
           /\ (includes (selectedEntities s) (id e) = false -> e' = e))
        (entities s) (entities (fst r))).
Proof.
  intros H. apply Nat.ltb_ge in H. unfold Corrected.createGroup.
  rewrite H, group_guard_is_not_blank.
  split; intros Hb; rewrite Hb; simpl; [reflexivity|].
  apply replace_where_frame.
Qed.

(** C4, as the components have it.  With fewer than 2 ticked ids
    createGroup shows an alert and changes nothing; with an empty
    sharedReplacement or a cancelled prompt it changes nothing and reports
    nothing.  With at least 2 ticked ids:
    - in the component of part_000, for every non-empty sharedReplacement,
      it sets [replacement = sharedReplacement];
    - in the corrected component, for every sharedReplacement with a
      character that is not white space, it sets
      [replacement = sharedReplacement.trim()], and it ignores a
      sharedReplacement of white space only as it does an empty one;
    in both on exactly the entities whose id is ticked, every other entity
    returned as it was, no other field changed, the list of ids kept as it
    was (no entity and no id is created), the ticks cleared and the group
    announced.  For a non-empty sharedReplacement that neither starts nor
    ends with white space the stored value is sharedReplacement in both
    components. *)
Theorem createGroup_sets_shared_replacement
  (v : Variant) (shared : jsstring) (s : State) :
  let r := createGroup_of v (Some shared) s in
  let accepted := match v with
                  | CompleteApp => truthy shared
                  | CorrectedApp => negb (blank shared)
                  end in
  let stored := match v with
                | CompleteApp => shared
                | CorrectedApp => trim shared
                end in
  ((length (selectedEntities s) < 2)%nat ->
   r = (s, [Alert NoticeGroupTooSmall]))
  /\ ((2 <= length (selectedEntities s))%nat ->
      createGroup_of v (Some []) s = (s, [])
      /\ createGroup_of v None s = (s, []))
  /\ ((2 <= length (selectedEntities s))%nat -> accepted = false ->
      r = (s, []))
  /\ ((2 <= length (selectedEntities s))%nat -> accepted = true ->
      Forall2
        (fun e e' =>
           same_but_replacement e e'
           /\ (includes (selectedEntities s) (id e) = true ->
               replacement e' = stored)
           /\ (includes (selectedEntities s) (id e) = false -> e' = e))
        (entities s) (entities (fst r))
      /\ map id (entities (fst r)) = map id (entities s)
      /\ document (fst r) = document s
      /\ selectedEntities (fst r) = []
      /\ snd r = [Alert (NoticeGroupCreated shared
                           (length (selectedEntities s)))])
  /\ (truthy shared = true -> trimmed shared = true ->
      accepted = true /\ stored = shared).
Proof.
  split; [apply createGroup_too_small|].
  split; [apply createGroup_empty_answer|].
  split; [| split].
  - intros H Ha. apply Nat.ltb_ge in H.
    destruct v; simpl; unfold Complete.createGroup, Corrected.createGroup;
      rewrite H.
    + now rewrite Ha.
    + rewrite group_guard_is_not_blank. now rewrite Ha.
  - intros H Ha. apply Nat.ltb_ge in H.
    destruct v; simpl; unfold Complete.createGroup, Corrected.createGroup;
      rewrite H.
    + rewrite Ha. simpl. repeat split.
      * apply replace_where_frame.
      * apply replace_where_ids.
    + rewrite group_guard_is_not_blank, Ha. simpl. repeat split.
      * apply replace_where_frame.
      * apply replace_where_ids.
  - intros Ht Hc. destruct v.
    + split; [exact Ht | reflexivity].
    + split; [| now apply trim_trimmed].
      now rewrite (trimmed_nonempty_not_blank _ Hc Ht).
Qed.

(** " X ", the answer typed into the prompt, and "X". *)
Example padded_X_trims : trim [32; 88; 32]%N = [88]%N.
Proof. reflexivity. Qed.

(** C4 as stated fails: with the ids "1" and "3" ticked and the non-empty
    sharedReplacement " X ", the corrected createGroup stores "X", not
    " X ", on the two entities; with the non-empty " " it changes nothing
    at all; and with the empty sharedReplacement both components return
    without any alert, so no failure is reported. *)
Lemma createGroup_padded_answer :
  let s := store [entity_a true; entity_b false; entity_c true]
                 [[49]; [51]]%N in
  truthy [32; 88; 32]%N = true
  /\ map replacement
       (entities (fst (Corrected.createGroup (Some [32; 88; 32]%N) s)))
     = [[88]; [79]; [88]]%N
  /\ truthy [32]%N = true
  /\ Corrected.createGroup (Some [32]%N) s = (s, [])
  /\ Corrected.createGroup (Some []) s = (s, [])
  /\ Complete.createGroup (Some []) s = (s, []).
Proof. repeat split. Qed.

(** The grouping scenario of the specification: three entities, all
    ticked, shared replacement "X". *)
Example createGroup_three_entities (v : Variant) :
  map replacement
    (entities (fst (createGroup_of v (Some [88]%N)
                      (store [entity_a true; entity_b true; entity_c true]
                             [[49]; [50]; [51]]%N))))
  = [[88]; [88]; [88]]%N.
Proof. destruct v; reflexivity. Qed.

Lemma createGroup_witness :
  let s := store [entity_a true; entity_b false; entity_c true]
                 [[49]; [51]]%N in
  let grouped (value : jsstring) (e e' : Entity) :=
    same_but_replacement e e'
    /\ (includes (selectedEntities s) (id e) = true -> replacement e' = value)
    /\ (includes (selectedEntities s) (id e) = false -> e' = e) in
  (2 <= length (selectedEntities s))%nat
  /\ negb (blank [32; 88; 32]%N) = true
  /\ truthy [32; 88; 32]%N = true
  /\ Forall2 (grouped [88]%N) (entities s)
       (entities (fst (createGroup_of CorrectedApp (Some [32; 88; 32]%N) s)))
  /\ Forall2 (grouped [32; 88; 32]%N) (entities s)
       (entities (fst (createGroup_of CompleteApp (Some [32; 88; 32]%N) s))).
Proof.
  intros s grouped.
  assert (H2 : (2 <= length (selectedEntities s))%nat) by (simpl; lia).
  destruct (@createGroup_sets_shared_replacement CorrectedApp [32; 88; 32]%N s)
    as (_ & _ & _ & Hcor & _).
  destruct (Hcor H2 eq_refl) as (Hf & _).
  destruct (@createGroup_sets_shared_replacement CompleteApp [32; 88; 32]%N s)
    as (_ & _ & _ & Hcom & _).
  destruct (Hcom H2 eq_refl) as (Hf' & _).
  split; [exact H2|]. split; [reflexivity|]. split; [reflexivity|].
  split; [exact Hf | exact Hf'].
Defined.

(** ** Deletion *)

Lemma other_id_true (entityId : jsstring) (e : Entity) :
  other_id entityId e = true <-> id e <> entityId.
Proof. unfold other_id. rewrite negb_true_iff. apply jsstring_eqb_neq. Qed.

Lemma filter_id (A : Type) (f : A -> bool) (l : list A) :
  (forall x, In x l -> f x = true) -> filter f l = l.
Proof.
  induction l as [|a l IH]; simpl; intros H; [reflexivity|].
  rewrite (H a) by auto. f_equal. auto.
Qed.

Lemma deleteEntity_entities (v : Variant) (entityId : jsstring) (s : State) :
  entities (fst (deleteEntity_of v entityId true s))
  = filter (other_id entityId) (entities s).
Proof. destruct v; reflexivity. Qed.

(** C7: deleteEntity(id), once the operator confirms, removes the entity
    with that id and no other: what remains is exactly the entities with
    another id, in their order; if the store is [l1 ++ e :: l2] with [e]
    the only entity of that id, what remains is [l1 ++ l2].  An absent id
    is a no-op, never an error: the entity set is unchanged and nothing is
    reported; indeed no call of deleteEntity reports anything.  When the
    operator declines the confirmation nothing is deleted. *)
Theorem deleteEntity_removes_exactly
  (v : Variant) (entityId : jsstring) (s : State) :
  let r := deleteEntity_of v entityId true s in
  (forall e, In e (entities (fst r)) <->
             In e (entities s) /\ id e <> entityId)
  /\ (forall l1 e l2,
        entities s = l1 ++ e :: l2 -> id e = entityId ->
        (forall x, In x (l1 ++ l2) -> id x <> entityId) ->
        entities (fst r) = l1 ++ l2)
  /\ ((forall e, In e (entities s) -> id e <> entityId) ->
      entities (fst r) = entities s)
  /\ (forall confirmed, snd (deleteEntity_of v entityId confirmed s) = [])
  /\ document (fst r) = document s
  /\ fst (deleteEntity_of v entityId false s) = s.
Proof.
  intros r. subst r. rewrite deleteEntity_entities.
  split; [| split; [| split; [| split; [| split]]]].
  - intros e. rewrite filter_In, other_id_true. tauto.
  - intros l1 e l2 -> He Hx. rewrite filter_app. simpl.
    assert (Hf : other_id entityId e = false).
    { unfold other_id. apply negb_false_iff. now apply jsstring_eqb_eq. }
    rewrite Hf, <- filter_app. apply filter_id.
    intros x Hin. apply other_id_true. auto.
  - intros H. apply filter_id. intros x Hin. apply other_id_true. auto.
  - intros confirmed. destruct v, confirmed; reflexivity.
  - destruct v; reflexivity.
  - destruct v; reflexivity.
Qed.

(** Deleting "2" from a store of three keeps "1" and "3"; deleting the
    absent "9" keeps all three. *)
Lemma deleteEntity_witness :
  let s := store [entity_a true; entity_b true; entity_c true] [] in
  entities (fst (deleteEntity_of CompleteApp [50]%N true s))
  = [entity_a true; entity_c true]
  /\ entities (fst (deleteEntity_of CorrectedApp [57]%N true s)) = entities s.
Proof.
  intros s. split.
  - destruct (@deleteEntity_removes_exactly CompleteApp [50]%N s)
      as (_ & H & _).
    apply (H [entity_a true] (entity_b true) [entity_c true]);
      [reflexivity | reflexivity |].
    intros x [<- | [<- | []]]; discriminate.
  - destruct (@deleteEntity_removes_exactly CorrectedApp [57]%N s)
      as (_ & _ & H & _).
    apply H. intros e [<- | [<- | [<- | []]]]; discriminate.
Defined.

(** ** Manual insertion *)

(** C6: the entity addManual creates is appended to the store with
    [source = MANUAL], [confidence = 1.0], [selected = true] and the single
    position [[startPos, endPos)]; it carries the text, type and
    replacement it was given. *)
Theorem addManualEntity_creates_manual_entity
  (text_ : jsstring) (type_ : EntityType) (replacement_ : jsstring)
  (startPos endPos : Z) (now : N) (s : State) :
  exists e,
    entities (fst (Complete.addManualEntity
                     text_ type_ replacement_ startPos endPos now s))
    = entities s ++ [e]
    /\ source e = MANUAL
    /\ confidence e = 1%Q
    /\ selected e = true
    /\ positions e = [mkPosition startPos endPos]
    /\ text e = text_ /\ type e = type_
    /\ replacement e = replacement_.
Proof.
  exists (Complete.newEntity text_ type_ replacement_ startPos endPos now).
  repeat split.
Qed.

(** C2, as the component has it: addManual validates nothing.  For every
    document, entity set and arguments, valid span or not, it reports
    success and appends exactly one entity behind the existing ones, which
    it leaves as they were, in place; the document and the grouping ticks
    are untouched.  It has no failing outcome. *)
Theorem addManualEntity_always_appends
  (text_ : jsstring) (type_ : EntityType) (replacement_ : jsstring)
  (startPos endPos : Z) (now : N) (s : State) :
  let r := Complete.addManualEntity
             text_ type_ replacement_ startPos endPos now s in
  snd r = [Alert NoticeManualAdded]
  /\ length (entities (fst r)) = S (length (entities s))
  /\ firstn (length (entities s)) (entities (fst r)) = entities s
  /\ document (fst r) = document s
  /\ selectedEntities (fst r) = selectedEntities s.
Proof.
  simpl. repeat split.
  - rewrite length_app. simpl. lia.
  - rewrite firstn_app, Nat.sub_diag, firstn_all. simpl. apply app_nil_r.
Qed.

(** C2 as stated fails: on the document "abcdefgh" holding an entity at
    [[0,5)], addManual("zz", person, "P", 7, 2) passes none of the three
    validations (7 < 2 fails; so does the text comparison), and
    addManual("de", person, "P", 3, 5) overlaps the existing entity; both
    calls report success and grow the entity set. *)
Lemma addManualEntity_accepts_invalid_span :
  let s := store [entity_a true] [] in
  spec_span_valid sample_text [122; 122]%N 7 2 (entities s) = false
  /\ Complete.addManualEntity [122; 122]%N person [80]%N 7 2 1700000000000 s
     = (store [entity_a true;
               Complete.newEntity [122; 122]%N person [80]%N 7 2 1700000000000]
              [],
        [Alert NoticeManualAdded])
  /\ spec_span_valid sample_text [100; 101]%N 3 5 (entities s) = false
  /\ length (entities (fst (Complete.addManualEntity
                              [100; 101]%N person [80]%N 3 5 1700000000000 s)))
     = 2%nat.
Proof. repeat split. Qed.

(** [Date.now().toString()] at 1700000000000 ms. *)
Example toString_now :
  toString 1700000000000
  = [49; 55; 48; 48; 48; 48; 48; 48; 48; 48; 48; 48; 48]%N.
Proof. reflexivity. Qed.

(** ** The non-overlap invariant under the store operations *)

Lemma disjoint_among_map_shrink
  (keep : Entity -> bool) (f : Entity -> Entity) (es : list Entity) :
  (forall e, positions (f e) = positions e) ->
  (forall e, In e es -> keep (f e) = true -> keep e = true) ->
  disjoint_among keep es = true -> disjoint_among keep (map f es) = true.
Proof.
  intros Hp. induction es as [|e r IH]; simpl; [reflexivity|].
  intros Hk H. apply andb_true_iff in H as [Hhd Htl].
  rewrite IH by auto. rewrite andb_true_r.
  rewrite forallb_forall in *. intros y Hy.
  apply in_map_iff in Hy as (x & <- & Hx). specialize (Hhd x Hx).
  destruct (keep (f e)) eqn:Ke; [|reflexivity].
  destruct (keep (f x)) eqn:Kx; [|reflexivity].
  rewrite (Hk e) in Hhd by auto. rewrite (Hk x) in Hhd by auto.
  unfold entities_overlap in *. now rewrite !Hp.
Qed.

Lemma overlap_with_single (q : Position) (ps : list Position) :
  existsb (fun p => existsb (spans_overlap p) [q]) ps
  = existsb (spans_overlap q) ps.
Proof.
  induction ps as [|p r IH]; simpl in *; [reflexivity|].
  now rewrite IH, orb_false_r, spans_overlap_sym.
Qed.

Lemma toggle_positions (entityId : jsstring) (e : Entity) :
  positions (toggle_one entityId e) = positions e.
Proof. apply toggle_one_frame. Qed.

Lemma SelectedDisjoint_replace_where
  (hit : Entity -> bool) (value : jsstring) (s : State) :
  SelectedDisjoint s ->
  disjoint_among selected
    (map (fun e => if hit e then with_replacement value e else e)
         (entities s)) = true.
Proof.
  intros H. rewrite replace_where_disjoint; [exact H | reflexivity].
Qed.

Lemma updateEntityReplacement_keeps_disjoint
  (v : Variant) (entityId value : jsstring) (s : State) :
  SelectedDisjoint s ->
  SelectedDisjoint (fst (updateEntityReplacement_of v entityId value s)).
Proof.
  intros H. destruct v; simpl.
  - now apply SelectedDisjoint_replace_where.
  - unfold Corrected.updateEntityReplacement.
    destruct (negb (truthy value) || jsstring_eqb (trim value) []);
      [exact H | now apply SelectedDisjoint_replace_where].
Qed.

Lemma deleteEntity_keeps_disjoint
  (v : Variant) (entityId : jsstring) (confirmed : bool) (s : State) :
  SelectedDisjoint s ->
  SelectedDisjoint (fst (deleteEntity_of v entityId confirmed s)).
Proof.
  intros H. destruct v, confirmed; simpl; try exact H;
    now apply disjoint_among_filter.
Qed.

Lemma createGroup_keeps_disjoint
  (v : Variant) (answer : option jsstring) (s : State) :
  SelectedDisjoint s ->
  SelectedDisjoint (fst (createGroup_of v answer s)).
Proof.
  intros H.
  destruct v; simpl; unfold Complete.createGroup, Corrected.createGroup;
    destruct (length (selectedEntities s) <? 2)%nat; try exact H;
    destruct answer as [g|]; try exact H.
  - destruct (truthy g); [now apply SelectedDisjoint_replace_where | exact H].
  - destruct (truthy g && truthy (trim g));
      [now apply SelectedDisjoint_replace_where | exact H].
Qed.

Lemma toggleEntity_keeps_all_disjoint (entityId : jsstring) (s : State) :
  AllDisjoint s -> AllDisjoint (toggleEntity entityId s).
Proof.
  intros H. unfold AllDisjoint. simpl.
  rewrite disjoint_among_map; [exact H | apply toggle_positions | reflexivity].
Qed.

Lemma toggleEntity_deselect_keeps_disjoint (entityId : jsstring) (s : State) :
  (forall e, In e (entities s) -> id e = entityId -> selected e = true) ->
  SelectedDisjoint s -> SelectedDisjoint (toggleEntity entityId s).
Proof.
  intros Hsel H. unfold SelectedDisjoint. simpl.
  apply disjoint_among_map_shrink; [apply toggle_positions | | exact H].
  intros e He. unfold toggle_one.
  destruct (jsstring_eqb (id e) entityId) eqn:Hid; [|auto].
  intros _. apply Hsel; [exact He | now apply jsstring_eqb_eq].
Qed.

Lemma forallb_pointwise (A : Type) (f g : A -> bool) (l : list A) :
  (forall x, f x = g x) -> forallb f l = forallb g l.
Proof.
  intros H. induction l as [|a l IH]; simpl; [reflexivity|].
  now rewrite H, IH.
Qed.

Lemma addManualEntity_disjoint_iff
  (text_ : jsstring) (type_ : EntityType) (replacement_ : jsstring)
  (startPos endPos : Z) (now : N) (s : State) :
  SelectedDisjoint s ->
  SelectedDisjoint (fst (Complete.addManualEntity
                           text_ type_ replacement_ startPos endPos now s))
  <-> span_free selected startPos endPos (entities s) = true.
Proof.
  intros H. unfold SelectedDisjoint in *.
  cbn [Complete.addManualEntity fst setEntities entities].
  rewrite disjoint_among_snoc, H. cbn [andb]. unfold span_free.
  erewrite forallb_pointwise; [reflexivity|].
  intros e. unfold entities_overlap. cbn [Complete.newEntity selected positions].
  now rewrite overlap_with_single, andb_true_r.
Qed.

(** C1, as the components have it: from a state in which the spans of the
    selected entities are pairwise non-overlapping, updateReplacement,
    deleteEntity and groupEntities lead to such a state.  toggleSelection
    does so when it deselects, and when the spans of all entities,
    selected or not, are pairwise non-overlapping (it then keeps that
    stronger property).  addManual re-validates nothing: the state it
    yields has the property exactly when [[startPos, endPos)] overlaps no
    position of a selected entity. *)
Theorem store_operations_keep_selected_disjoint (v : Variant) (s : State) :
  SelectedDisjoint s ->
  (forall entityId value,
      SelectedDisjoint (fst (updateEntityReplacement_of v entityId value s)))
  /\ (forall entityId confirmed,
         SelectedDisjoint (fst (deleteEntity_of v entityId confirmed s)))
  /\ (forall answer, SelectedDisjoint (fst (createGroup_of v answer s)))
  /\ (forall entityId,
         (forall e, In e (entities s) -> id e = entityId -> selected e = true) ->
         SelectedDisjoint (toggleEntity entityId s))
  /\ (forall entityId,
         AllDisjoint s ->
         AllDisjoint (toggleEntity entityId s)
         /\ SelectedDisjoint (toggleEntity entityId s))
  /\ (forall text_ type_ replacement_ startPos endPos now,
         SelectedDisjoint (fst (Complete.addManualEntity
                                  text_ type_ replacement_ startPos endPos
                                  now s))
         <-> span_free selected startPos endPos (entities s) = true).
Proof.
  intros H.
  split; [intros; now apply updateEntityReplacement_keeps_disjoint|].
  split; [intros; now apply deleteEntity_keeps_disjoint|].
  split; [intros; now apply createGroup_keeps_disjoint|].
  split; [intros; now apply toggleEntity_deselect_keeps_disjoint|].
  split.
  - intros entityId HA.
    pose proof (toggleEntity_keeps_all_disjoint entityId HA) as HA'.
    split; [exact HA' | now apply disjoint_among_all].
  - intros. now apply addManualEntity_disjoint_iff.
Qed.

(** C1 as stated fails, twice.  With the selected entity "1" at [[0,5)] in
    the store, addManual at [[3,5)] is accepted and leaves two selected
    entities that overlap; and with "2" at [[3,8)] present but not
    selected, toggleSelection("2") selects it over "1". *)
Lemma overlap_after_addManual_and_toggle :
  let s1 := store [entity_a true] [] in
  let s2 := store [entity_a true; entity_b false] [] in
  disjoint_among selected (entities s1) = true
  /\ disjoint_among selected
       (entities (fst (Complete.addManualEntity
                         [100; 101]%N person [80]%N 3 5 1700000000000 s1)))
     = false
  /\ disjoint_among selected (entities s2) = true
  /\ disjoint_among selected (entities (toggleEntity [50]%N s2)) = false.
Proof. repeat split. Qed.

(** A reconciled store of two disjoint entities: every operation keeps
    the selected spans apart, and a manual span at [[5,8)] is free next
    to the entity at [[0,5)]. *)
Lemma store_operations_witness :
  let s := store [entity_a true; entity_c false] [[49]; [51]]%N in
  SelectedDisjoint s
  /\ SelectedDisjoint (fst (createGroup_of CorrectedApp (Some [88]%N) s))
  /\ SelectedDisjoint (toggleEntity [51]%N s)
  /\ SelectedDisjoint (fst (Complete.addManualEntity
                              [102; 103; 104]%N phone [84]%N 5 8
                              1700000000000 s)).
Proof.
  intros s.
  assert (H : SelectedDisjoint s) by reflexivity.
  destruct (@store_operations_keep_selected_disjoint CorrectedApp s H)
    as (_ & _ & Hg & _ & Ht & Ha).
  split; [exact H|]. split; [apply Hg|]. split.
  - apply Ht. reflexivity.
  - apply Ha. reflexivity.
Defined.

(** ** Rewriting *)

Lemma collect_nothing_selected (es : list Entity) :
  (forall e, In e es -> selected e = false) ->
  DocumentRewriter.collect es = [].
Proof.
  induction es as [|e r IH]; simpl; intros H; [reflexivity|].
  rewrite (H e) by auto. simpl. auto.
Qed.

(** The rewriter at work on "abcdefgh": "abcde" becomes "P" and "fgh"
    becomes "T"; two selected entities that overlap are refused. *)
Example rewrite_two_entities :
  DocumentRewriter.rewrite sample_text [entity_c true; entity_a true]
  = DocumentRewriter.Anonymized [80; 84]%N
      [(mkPosition 0 5, [80]%N); (mkPosition 5 8, [84]%N)]
  /\ DocumentRewriter.rewrite sample_text [entity_a true; entity_b true]
     = DocumentRewriter.OverlapError
  /\ DocumentRewriter.rewrite sample_text [entity_a false; entity_c true]
     = DocumentRewriter.Anonymized [97; 98; 99; 100; 101; 84]%N
         [(mkPosition 5 8, [84]%N)].
Proof. repeat split. Qed.

(** C5: when no entity is selected, the rewriter returns the original
    text exactly (with an empty change log), for every text and every
    entity set. *)
Theorem rewrite_nothing_selected_is_identity
  (originalText : jsstring) (es : list Entity) :
  (forall e, In e es -> selected e = false) ->
  DocumentRewriter.rewrite originalText es
  = DocumentRewriter.Anonymized originalText [].
Proof.
  intros H. unfold DocumentRewriter.rewrite.
  now rewrite (collect_nothing_selected _ H).
Qed.

Lemma rewrite_nothing_selected_witness :
  DocumentRewriter.rewrite sample_text [entity_a false; entity_b false]
  = DocumentRewriter.Anonymized sample_text [].
Proof.
  apply rewrite_nothing_selected_is_identity.
  intros e [<- | [<- | []]]; reflexivity.
Defined.

(** ** Document generation *)

Lemma filter_selected_empty (es : list Entity) :
  (forall e, In e es -> selected e = false) -> filter selected es = [].
Proof.
  induction es as [|e r IH]; simpl; intros H; [reflexivity|].
  rewrite (H e) by auto. auto.
Qed.

Lemma filter_selected_nonempty (es : list Entity) :
  filter selected es <> [] -> exists e, In e es /\ selected e = true.
Proof.
  destruct (filter selected es) as [|e r] eqn:Hf; [congruence|].
  intros _. exists e. apply filter_In. rewrite Hf. now left.
Qed.

(** C9: the corrected generateDocument sends nothing when the entity list
    is empty or when no entity is selected: its only effect is then the
    alert that says so.  Hence whenever a document-generation request is
    issued, the store holds at least one selected entity (and the request
    carries the whole entity list). *)
Theorem generateDocument_requires_selection
  (server : Payload -> bool) (s : State) :
  (entities s = [] \/ forall e, In e (entities s) -> selected e = false) ->
  (Corrected.generateDocument server s = [Alert NoticeNoEntity]
   \/ Corrected.generateDocument server s = [Alert NoticeNoneSelected])
  /\ forall p, ~ In (PostGenerateDocument p)
                    (Corrected.generateDocument server s).
Proof.
  intros H. unfold Corrected.generateDocument.
  destruct H as [H | H].
  - rewrite H. simpl.
    split; [now left|]. intros p [Hp | []]. discriminate.
  - rewrite (filter_selected_empty _ H).
    destruct (length (entities s) =? 0)%nat; simpl.
    + split; [now left|]. intros p [Hp | []]. discriminate.
    + split; [now right|]. intros p [Hp | []]. discriminate.
Qed.

(** The converse reading: a request in the effects of generateDocument
    comes with a selected entity in the store. *)
Lemma generateDocument_post_has_selection
  (server : Payload -> bool) (s : State) (p : Payload) :
  In (PostGenerateDocument p) (Corrected.generateDocument server s) ->
  payload_entities p = entities s
  /\ exists e, In e (entities s) /\ selected e = true.
Proof.
  unfold Corrected.generateDocument.
  destruct (length (entities s) =? 0)%nat.
  { intros [H | []]; discriminate. }
  destruct (length (filter selected (entities s)) =? 0)%nat eqn:Hn.
  { intros [H | []]; discriminate. }
  intros Hin. split.
  - destruct (document s) as [d|]; [| destruct Hin as [H | []]; discriminate].
    destruct (server _); simpl in Hin;
      destruct Hin as [H | Hin]; try (injection H as <-; reflexivity);
      destruct Hin as [H | Hin]; try discriminate;
      try destruct Hin as [H | []]; try discriminate; try contradiction.
  - apply filter_selected_nonempty. intros E. rewrite E in Hn. discriminate.
Qed.

(** With entities in the store but none selected, and with no entity at
    all, the corrected component only alerts; with one selected it posts.
    The component of part_000 has no such guard and posts the unselected
    list. *)
Lemma generateDocument_witness :
  (Corrected.generateDocument (fun _ => true)
     (store [entity_a false; entity_c false] [])
   = [Alert NoticeNoEntity]
   \/ Corrected.generateDocument (fun _ => true)
        (store [entity_a false; entity_c false] [])
      = [Alert NoticeNoneSelected])
  /\ forall p, ~ In (PostGenerateDocument p)
                    (Corrected.generateDocument (fun _ => true)
                       (store [entity_a false; entity_c false] [])).
Proof.
  apply generateDocument_requires_selection.
  right. intros e [<- | [<- | []]]; reflexivity.
Defined.

Example generateDocument_runs :
  Corrected.generateDocument (fun _ => true) (store [] [])
  = [Alert NoticeNoEntity]
  /\ Corrected.generateDocument (fun _ => true) (store [entity_a false] [])
     = [Alert NoticeNoneSelected]
  /\ Corrected.generateDocument (fun _ => true) (store [entity_a true] [])
     = [PostGenerateDocument
          (mkPayload [entity_a true] sample_text
             [100; 95; 97; 110; 111; 110; 121; 109; 105; 115; 101;
              46; 100; 111; 99; 120]%N);
        Alert NoticeGenerationError]
  /\ In (PostGenerateDocument
           (mkPayload [entity_a false] sample_text
              (output_name sample_document)))
        (Complete.generateDocument (fun _ => true)
           (store [entity_a false] [])).
Proof. repeat split. now left. Qed.

(* ===================================================================== *)
(** * Further properties of the handlers *)
(* ===================================================================== *)

(** ** List and record facts *)

Lemma with_selected_same (e : Entity) : with_selected (selected e) e = e.
Proof. now destruct e. Qed.

Lemma with_selected_twice (a b : bool) (e : Entity) :
  with_selected a (with_selected b e) = with_selected a e.
Proof. reflexivity. Qed.

Lemma with_replacement_twice (a b : jsstring) (e : Entity) :
  with_replacement a (with_replacement b e) = with_replacement a e.
Proof. reflexivity. Qed.

Lemma map_pointwise (X Y : Type) (f g : X -> Y) (xs : list X) :
  (forall x, f x = g x) -> map f xs = map g xs.
Proof. intros H. now apply map_ext. Qed.

Lemma filter_twice (A : Type) (f : A -> bool) (l : list A) :
  filter f (filter f l) = filter f l.
Proof.
  induction l as [|a l IH]; simpl; [reflexivity|].
  destruct (f a) eqn:Ha; simpl; rewrite ?Ha; congruence.
Qed.

Lemma filter_swap (A : Type) (f g : A -> bool) (l : list A) :
  filter f (filter g l) = filter g (filter f l).
Proof.
  induction l as [|a l IH]; simpl; [reflexivity|].
  destruct (g a) eqn:Hg, (f a) eqn:Hf; simpl; rewrite ?Hg, ?Hf; congruence.
Qed.

Lemma filter_map_swap (A : Type) (p : A -> bool) (f : A -> A) (l : list A) :
  (forall x, p (f x) = p x) -> filter p (map f l) = map f (filter p l).
Proof.
  intros H. induction l as [|a l IH]; simpl; [reflexivity|].
  rewrite H. destruct (p a); simpl; congruence.
Qed.

Lemma toggle_one_id (entityId : jsstring) (e : Entity) :
  id (toggle_one entityId e) = id e.
Proof. apply toggle_one_frame. Qed.

Lemma toggle_one_twice (entityId : jsstring) (e : Entity) :
  toggle_one entityId (toggle_one entityId e) = e.
Proof.
  unfold toggle_one at 2.
  destruct (jsstring_eqb (id e) entityId) eqn:H.
  - unfold toggle_one. simpl. rewrite H. destruct e as [? ? ? ? ? ? ? b].
    simpl. now rewrite negb_involutive.
  - unfold toggle_one. now rewrite H.
Qed.

(** ** Selection, again *)

(** Toggling the same id twice gives back the state, whole. *)
Theorem toggleEntity_involutive (entityId : jsstring) (s : State) :
  toggleEntity entityId (toggleEntity entityId s) = s.
Proof.
  destruct s as [d es t]. unfold toggleEntity, setEntities. simpl. f_equal.
  rewrite map_map. rewrite (map_pointwise _ (fun e => e)).
  - apply map_id.
  - apply toggle_one_twice.
Qed.

Lemma every_selected_uniform (v : bool) (es : list Entity) :
  es <> [] -> forallb selected (map (with_selected v) es) = v.
Proof.
  intros H. induction es as [|e r IH]; [congruence|]. simpl.
  destruct r as [|e' r]; [apply andb_true_r|].
  rewrite IH by discriminate. apply andb_diag.
Qed.

(** The select-all button settles after one click: a third click gives
    what the first gave (on a non-empty store the clicks then alternate
    between everything selected and nothing selected). *)
Theorem selectAll_thrice (s : State) :
  selectAll (selectAll (selectAll s)) = selectAll s.
Proof.
  destruct s as [d es t]. unfold selectAll, setEntities. simpl. f_equal.
  destruct es as [|e r]; [reflexivity|].
  set (es := e :: r). set (v := negb (forallb selected es)).
  assert (Hne : es <> []) by discriminate.
  assert (Hne' : forall w, map (with_selected w) es <> []) by (intros w; discriminate).
  rewrite (every_selected_uniform v Hne).
  rewrite (map_map (with_selected v) (with_selected (negb v))).
  rewrite (map_pointwise _ (with_selected (negb v)) es
             (fun x => with_selected_twice (negb v) v x)).
  rewrite (every_selected_uniform (negb v) Hne).
  rewrite map_map, negb_involutive.
  apply map_pointwise. intros x. apply with_selected_twice.
Qed.

(** ** Deletion, again *)

(** Deleting is idempotent, and two deletions can be done in either
    order: the resulting state (entities and grouping ticks) is the
    same. *)
Theorem deleteEntity_idempotent_commutes
  (v : Variant) (a b : jsstring) (s : State) :
  let del i st := fst (deleteEntity_of v i true st) in
  del a (del a s) = del a s /\ del a (del b s) = del b (del a s).
Proof.
  destruct s as [d es t].
  destruct v; simpl; unfold setEntities, setSelectedEntities; simpl; split;
    f_equal; try apply filter_twice; apply filter_swap.
Qed.

(** ** Independence of selection and edits *)

(** Toggling a selection commutes with editing a replacement, with
    grouping and with deleting: the same state and the same alerts come
    out in either order. *)
Theorem toggleEntity_commutes
  (v : Variant) (a b value : jsstring) (answer : option jsstring)
  (confirmed : bool) (s : State) :
  let lift (r : State * list Effect) := (toggleEntity a (fst r), snd r) in
  lift (updateEntityReplacement_of v b value s)
    = updateEntityReplacement_of v b value (toggleEntity a s)
  /\ lift (createGroup_of v answer s)
     = createGroup_of v answer (toggleEntity a s)
  /\ lift (deleteEntity_of v b confirmed s)
     = deleteEntity_of v b confirmed (toggleEntity a s).
Proof.
  assert (Hm : forall (hit : Entity -> bool) w es,
             (forall e, hit (toggle_one a e) = hit e) ->
             map (toggle_one a)
                 (map (fun e => if hit e then with_replacement w e else e) es)
             = map (fun e => if hit e then with_replacement w e else e)
                   (map (toggle_one a) es)).
  { intros hit w es Hh. rewrite !map_map. apply map_pointwise. intros e.
    rewrite Hh. destruct (hit e); [|reflexivity].
    unfold toggle_one. simpl. now destruct (jsstring_eqb (id e) a). }
  assert (H1 : forall w es,
             map (toggle_one a)
                 (map (fun e => if jsstring_eqb (id e) b
                                then with_replacement w e else e) es)
             = map (fun e => if jsstring_eqb (id e) b
                             then with_replacement w e else e)
                   (map (toggle_one a) es)).
  { intros w es.
    apply (Hm (fun e => jsstring_eqb (id e) b) w es); intros.
    now rewrite toggle_one_id. }
  assert (H2 : forall ids w es,
             map (toggle_one a)
                 (map (fun e => if includes ids (id e)
                                then with_replacement w e else e) es)
             = map (fun e => if includes ids (id e)
                             then with_replacement w e else e)
                   (map (toggle_one a) es)).
  { intros ids w es.
    apply (Hm (fun e => includes ids (id e)) w es); intros.
    now rewrite toggle_one_id. }
  assert (H3 : forall es,
             map (toggle_one a) (filter (other_id b) es)
             = filter (other_id b) (map (toggle_one a) es)).
  { intros es. symmetry. apply filter_map_swap. intros x.
    unfold other_id. now rewrite toggle_one_id. }
  destruct s as [d es t].
  destruct v; simpl;
    unfold Complete.updateEntityReplacement, Corrected.updateEntityReplacement,
           Complete.createGroup, Corrected.createGroup,
           Complete.deleteEntity, Corrected.deleteEntity,
           toggleEntity, setEntities, setSelectedEntities; simpl.
  - split; [now rewrite H1|]. split.
    + destruct (length t <? 2)%nat; [reflexivity|].
      destruct answer as [g|]; [|reflexivity].
      destruct (truthy g); [|reflexivity]. simpl. now rewrite H2.
    + destruct confirmed; [|reflexivity]. simpl. now rewrite H3.
  - split.
    + destruct (negb (truthy value) || jsstring_eqb (trim value) []);
        [reflexivity|]. simpl. now rewrite H1.
    + split.
      * destruct (length t <? 2)%nat; [reflexivity|].
        destruct answer as [g|]; [|reflexivity].
        destruct (truthy g && truthy (trim g)); [|reflexivity].
        simpl. now rewrite H2.
      * destruct confirmed; [|reflexivity]. simpl. now rewrite H3.
Qed.

(** ** Replacement edits, again *)

Lemma not_blank_truthy (value : jsstring) :
  blank value = false -> truthy value = true.
Proof. destruct value; [discriminate | reflexivity]. Qed.

Lemma Corrected_update_entities (entityId value : jsstring) (s : State) :
  blank value = false ->
  entities (fst (Corrected.updateEntityReplacement entityId value s))
  = map (fun e => if jsstring_eqb (id e) entityId
                  then with_replacement (trim value) e else e)
        (entities s).
Proof.
  intros Hb. unfold Corrected.updateEntityReplacement.
  now rewrite guard_is_blank, Hb.
Qed.

Lemma replace_where_twice
  (hit : Entity -> bool) (a b : jsstring) (es : list Entity) :
  (forall w e, hit (with_replacement w e) = hit e) ->
  map (fun e => if hit e then with_replacement b e else e)
      (map (fun e => if hit e then with_replacement a e else e) es)
  = map (fun e => if hit e then with_replacement b e else e) es.
Proof.
  intros Hh. rewrite map_map. apply map_pointwise. intros e.
  destruct (hit e) eqn:H; [rewrite Hh, H | rewrite H]; reflexivity.
Qed.

(** The last edit wins: editing the replacement of an id twice leaves
    the entities as the second edit alone would (the second value not
    being blank, which the corrected component would refuse). *)
Theorem updateEntityReplacement_last_wins
  (v : Variant) (entityId first second : jsstring) (s : State) :
  blank second = false ->
  entities (fst (updateEntityReplacement_of v entityId second
                   (fst (updateEntityReplacement_of v entityId first s))))
  = entities (fst (updateEntityReplacement_of v entityId second s)).
Proof.
  intros Hb. destruct v; simpl.
  - apply (replace_where_twice (fun e => jsstring_eqb (id e) entityId)).
    reflexivity.
  - rewrite (@Corrected_update_entities entityId second _ Hb).
    rewrite (@Corrected_update_entities entityId second s Hb).
    unfold Corrected.updateEntityReplacement.
    destruct (negb (truthy first) || jsstring_eqb (trim first) []);
      [reflexivity|].
    apply (replace_where_twice (fun e => jsstring_eqb (id e) entityId)).
    reflexivity.
Qed.

Lemma updateEntityReplacement_last_wins_witness :
  map replacement
    (entities (fst (updateEntityReplacement_of CorrectedApp [49]%N [84]%N
                      (fst (updateEntityReplacement_of CorrectedApp [49]%N
                              [88; 32]%N
                              (store [entity_a true; entity_c true] []))))))
  = [[84]; [84]]%N.
Proof.
  rewrite updateEntityReplacement_last_wins by reflexivity. reflexivity.
Defined.

(** ** Grouping as repeated editing *)

Section GroupAsEdits.

Variable value : jsstring.

Let edit (i : jsstring) (e : Entity) : Entity :=
  if jsstring_eqb (id e) i then with_replacement value e else e.

Lemma edits_fold (ids : list jsstring) (es : list Entity) :
  fold_left (fun l i => map (edit i) l) ids es
  = map (fun e => if includes ids (id e) then with_replacement value e else e)
        es.
Proof.
  revert es. induction ids as [|i ids IH]; intros es; simpl.
  - symmetry. apply map_id.
  - rewrite IH, map_map. apply map_pointwise. intros e. unfold edit.
    destruct (jsstring_eqb (id e) i) eqn:Hi; simpl; [|reflexivity].
    now destruct (includes ids (id e)).
Qed.

End GroupAsEdits.

Lemma fold_left_entities
  (f : State -> jsstring -> State) (g : list Entity -> jsstring -> list Entity)
  (ids : list jsstring) (s : State) :
  (forall st i, entities (f st i) = g (entities st) i) ->
  entities (fold_left f ids s) = fold_left g ids (entities s).
Proof.
  intros H. revert s. induction ids as [|i ids IH]; intros s; simpl;
    [reflexivity|]. now rewrite IH, H.
Qed.

(** Grouping is editing in a loop: with at least 2 ticked ids and an
    answer that is not blank, createGroup leaves the entities as calling
    updateEntityReplacement with that answer for each ticked id, one
    after the other, does. *)
Theorem createGroup_is_repeated_update
  (v : Variant) (shared : jsstring) (s : State) :
  (2 <= length (selectedEntities s))%nat ->
  blank shared = false ->
  entities (fst (createGroup_of v (Some shared) s))
  = entities
      (fold_left (fun st i => fst (updateEntityReplacement_of v i shared st))
                 (selectedEntities s) s).
Proof.
  intros H Hb. apply Nat.ltb_ge in H.
  destruct v; simpl.
  - unfold Complete.createGroup. rewrite H, (not_blank_truthy _ Hb). simpl.
    rewrite (@fold_left_entities _
               (fun l i => map (fun e => if jsstring_eqb (id e) i
                                         then with_replacement shared e
                                         else e) l))
      by reflexivity.
    symmetry. apply edits_fold.
  - unfold Corrected.createGroup.
    rewrite H, group_guard_is_not_blank, Hb. simpl.
    rewrite (@fold_left_entities _
               (fun l i => map (fun e => if jsstring_eqb (id e) i
                                         then with_replacement (trim shared) e
                                         else e) l))
      by (intros; now apply Corrected_update_entities).
    symmetry. apply edits_fold.
Qed.

Lemma createGroup_is_repeated_update_witness :
  let s := store [entity_a true; entity_b false; entity_c true]
                 [[49]; [51]]%N in
  map replacement
    (entities
       (fold_left (fun st i => fst (updateEntityReplacement_of CorrectedApp
                                      i [32; 88]%N st))
                  (selectedEntities s) s))
  = [[88]; [79]; [88]]%N.
Proof.
  intros s.
  rewrite <- (@createGroup_is_repeated_update CorrectedApp [32; 88]%N s);
    [reflexivity | simpl; lia | reflexivity].
Defined.

(** ** Manual insertion, again *)

Lemma uint_units_inj (u u' : Decimal.uint) :
  uint_units u = uint_units u' -> u = u'.
Proof.
  revert u'. induction u; intros u'; destruct u'; simpl; intros H;
    try discriminate; try reflexivity;
    injection H as H; f_equal; auto.
Qed.

Lemma toString_inj (n m : N) : toString n = toString m -> n = m.
Proof.
  unfold toString. intros H. apply DecimalN.Unsigned.to_uint_inj.
  now apply uint_units_inj.
Qed.

(** Manual entities created at different instants of [Date.now()] get
    different ids. *)
Theorem manual_ids_distinct
  (text1 text2 : jsstring) (type1 type2 : EntityType)
  (replacement1 replacement2 : jsstring) (start1 end1 start2 end2 : Z)
  (now1 now2 : N) :
  now1 <> now2 ->
  id (Complete.newEntity text1 type1 replacement1 start1 end1 now1)
  <> id (Complete.newEntity text2 type2 replacement2 start2 end2 now2).
Proof. intros H E. apply H. now apply toString_inj. Qed.

Lemma manual_ids_distinct_witness :
  id (Complete.newEntity [97]%N person [80]%N 0 1 1700000000000)
  <> id (Complete.newEntity [97]%N person [80]%N 0 1 1700000000001).
Proof. apply manual_ids_distinct. discriminate. Defined.

(** Adding a manual entity and deleting it again gives back the entity
    list, provided no entity of the store already carries the id
    [Date.now().toString()]. *)
Theorem addManualEntity_then_delete
  (v : Variant) (text_ : jsstring) (type_ : EntityType)
  (replacement_ : jsstring) (startPos endPos : Z) (now : N) (s : State) :
  (forall e, In e (entities s) -> id e <> toString now) ->
  entities
    (fst (deleteEntity_of v (toString now) true
            (fst (Complete.addManualEntity
                    text_ type_ replacement_ startPos endPos now s))))
  = entities s.
Proof.
  intros H. rewrite deleteEntity_entities. simpl.
  rewrite filter_app. simpl. unfold other_id at 2. simpl.
  rewrite jsstring_eqb_refl. simpl. rewrite app_nil_r.
  apply filter_id. intros x Hx. apply other_id_true. auto.
Qed.

Lemma addManualEntity_then_delete_witness :
  let s := store [entity_a true; entity_c false] [] in
  entities
    (fst (deleteEntity_of CorrectedApp (toString 1700000000000) true
            (fst (Complete.addManualEntity
                    [102]%N phone [84]%N 5 6 1700000000000 s))))
  = entities s.
Proof.
  intros s. apply addManualEntity_then_delete.
  intros e [<- | [<- | []]]; discriminate.
Defined.

(** ** Replacements are never blank in the corrected component *)

Lemma trim_not_blank (value : jsstring) :
  blank value = false -> blank (trim value) = false.
Proof.
  intros Hb. unfold trim, trimEnd.
  destruct (trimStart_not_blank _ Hb) as (c & r & -> & Hc).
  simpl rev.
  destruct (@trimStart_app_solid (rev r) c [] Hc) as [t ->].
  rewrite rev_app_distr. simpl. now rewrite Hc.
Qed.

Lemma filled_replace_where
  (hit : Entity -> bool) (value : jsstring) (es : list Entity) :
  blank value = false ->
  Forall (fun e => blank (replacement e) = false) es ->
  Forall (fun e => blank (replacement e) = false)
         (map (fun e => if hit e then with_replacement value e else e) es).
Proof.
  intros Hv H. induction H as [|e r He Hr IH]; simpl; constructor; auto.
  now destruct (hit e).
Qed.

Lemma filled_keep_replacement (f : Entity -> Entity) (es : list Entity) :
  (forall e, replacement (f e) = replacement e) ->
  Forall (fun e => blank (replacement e) = false) es ->
  Forall (fun e => blank (replacement e) = false) (map f es).
Proof.
  intros Hf H. induction H; simpl; constructor; auto. now rewrite Hf.
Qed.

Lemma filled_filter (p : Entity -> bool) (es : list Entity) :
  Forall (fun e => blank (replacement e) = false) es ->
  Forall (fun e => blank (replacement e) = false) (filter p es).
Proof.
  intros H. induction H as [|e r He Hr IH]; simpl; [constructor|].
  destruct (p e); auto.
Qed.

(** In the corrected component no operation of the dashboard makes a
    replacement blank: if every entity has a replacement with a visible
    character, so it is after editing a replacement (whatever is typed),
    grouping (whatever is answered), deleting, toggling and select-all. *)
Theorem Corrected_keeps_replacements_filled (s : State) :
  ReplacementsFilled s ->
  (forall entityId value,
      ReplacementsFilled
        (fst (Corrected.updateEntityReplacement entityId value s)))
  /\ (forall answer, ReplacementsFilled (fst (Corrected.createGroup answer s)))
  /\ (forall entityId confirmed,
         ReplacementsFilled (fst (Corrected.deleteEntity entityId confirmed s)))
  /\ (forall entityId, ReplacementsFilled (toggleEntity entityId s))
  /\ ReplacementsFilled (selectAll s).
Proof.
  unfold ReplacementsFilled. intros H.
  split; [| split; [| split; [| split]]].
  - intros entityId value. unfold Corrected.updateEntityReplacement.
    rewrite guard_is_blank. destruct (blank value) eqn:Hb; [exact H|].
    simpl. apply filled_replace_where; [now apply trim_not_blank | exact H].
  - intros answer. unfold Corrected.createGroup.
    destruct (length (selectedEntities s) <? 2)%nat; [exact H|].
    destruct answer as [g|]; [|exact H].
    rewrite group_guard_is_not_blank. destruct (blank g) eqn:Hb; [exact H|].
    simpl. apply filled_replace_where; [now apply trim_not_blank | exact H].
  - intros entityId [|]; simpl; [now apply filled_filter | exact H].
  - intros entityId. simpl. apply filled_keep_replacement; [|exact H].
    intros e. apply toggle_one_frame.
  - simpl. now apply filled_keep_replacement.
Qed.

Lemma Corrected_keeps_replacements_filled_witness :
  let s := store [entity_a true; entity_c true] [[49]; [51]]%N in
  ReplacementsFilled s
  /\ ReplacementsFilled
       (fst (Corrected.updateEntityReplacement [49]%N [32; 32]%N s))
  /\ ReplacementsFilled (fst (Corrected.createGroup (Some [32; 88]%N) s)).
Proof.
  intros s.
  assert (H : ReplacementsFilled s) by (repeat constructor).
  destruct (Corrected_keeps_replacements_filled H) as (Hu & Hg & _).
  split; [exact H|]. split; [apply Hu | apply Hg].
Defined.

(** ** Statistics *)

Lemma filter_length_le (A : Type) (f : A -> bool) (l : list A) :
  (length (filter f l) <= length l)%nat.
Proof.
  induction l as [|a l IH]; simpl; [lia|]. destruct (f a); simpl; lia.
Qed.

(** The counters of the dashboard add up: every entity is counted under
    exactly one source, and the selected ones are at most all. *)
Theorem stats_partition (s : State) :
  Stats.total (stats s)
  = (Stats.regex (stats s) + Stats.ner (stats s)
     + Stats.ollama (stats s) + Stats.manual (stats s))%nat
  /\ (Stats.selected (stats s) <= Stats.total (stats s))%nat.
Proof.
  unfold stats. simpl. split; [|apply filter_length_le].
  induction (entities s) as [|e r IH]; simpl; [reflexivity|].
  destruct (source e); simpl; lia.
Qed.

Lemma filter_source_with_selected (v : bool) (src : Source) (es : list Entity) :
  length (filter (fun e => source_eqb (source e) src)
                 (map (with_selected v) es))
  = length (filter (fun e => source_eqb (source e) src) es).
Proof.
  induction es as [|e r IH]; simpl; [reflexivity|].
  destruct (source_eqb (source e) src); simpl; congruence.
Qed.

Lemma filter_selected_uniform (v : bool) (es : list Entity) :
  length (filter selected (map (with_selected v) es))
  = if v then length es else 0%nat.
Proof.
  induction es as [|e r IH]; simpl; [now destruct v|].
  destruct v; simpl; congruence.
Qed.

(** After a click on select-all the counters by source and the total are
    what they were, and the counter of selected entities shows the total
    or zero: the total unless every entity was selected before. *)
Theorem stats_after_selectAll (s : State) :
  Stats.total (stats (selectAll s)) = Stats.total (stats s)
  /\ Stats.regex (stats (selectAll s)) = Stats.regex (stats s)
  /\ Stats.ner (stats (selectAll s)) = Stats.ner (stats s)
  /\ Stats.ollama (stats (selectAll s)) = Stats.ollama (stats s)
  /\ Stats.manual (stats (selectAll s)) = Stats.manual (stats s)
  /\ Stats.selected (stats (selectAll s))
     = if forallb selected (entities s) then 0%nat
       else Stats.total (stats s).
Proof.
  unfold stats, selectAll. simpl.
  rewrite !filter_source_with_selected, filter_selected_uniform, length_map.
  repeat split. now destruct (forallb selected (entities s)).
Qed.

(** ** The displayed list *)

Lemma starts_with_spec (t s : jsstring) :
  starts_with t s = true <-> exists b, s = t ++ b.
Proof.
  revert s. induction t as [|a t IH]; intros s; simpl.
  - split; [intros _; now exists s | reflexivity].
  - destruct s as [|c s].
    + split; [discriminate | intros [b Hb]; discriminate].
    + rewrite andb_true_iff, N.eqb_eq, IH. split.
      * intros [-> [b ->]]. now exists b.
      * intros [b Hb]. injection Hb as -> ->. split; [reflexivity|now exists b].
Qed.

(** [str_includes s t] holds exactly when [t] occurs in [s]. *)
Lemma str_includes_spec (s t : jsstring) :
  str_includes s t = true <-> exists a b, s = a ++ t ++ b.
Proof.
  induction s as [|c s IH]; simpl.
  - rewrite orb_false_r, starts_with_spec. split.
    + intros [b Hb]. now exists [], b.
    + intros (a & b & H). destruct a; [|discriminate]. now exists b.
  - rewrite orb_true_iff, starts_with_spec, IH. split.
    + intros [[b Hb] | (a & b & ->)].
      * now exists [], b.
      * now exists (c :: a), b.
    + intros (a & b & H). destruct a as [|x a].
      * left. now exists b.
      * right. injection H as -> ->. now exists a, b.
Qed.

Lemma str_includes_empty (s : jsstring) : str_includes s [] = true.
Proof. destruct s; reflexivity. Qed.

(** With an empty search box and the source filter on 'all', the
    dashboard lists every entity of the store, in both components
    ([toLowerCase] maps the empty string to itself). *)
Theorem filteredEntities_unfiltered
  (toLowerCase : jsstring -> jsstring) (s : State) :
  toLowerCase [] = [] ->
  Complete_filteredEntities toLowerCase [] AllSources s = entities s
  /\ Corrected_filteredEntities toLowerCase [] AllSources s = entities s.
Proof.
  intros H. unfold Complete_filteredEntities, Corrected_filteredEntities.
  rewrite H. split; apply filter_id; intros x _;
    now rewrite str_includes_empty.
Qed.

Lemma filteredEntities_unfiltered_witness :
  Complete_filteredEntities ascii_lower [] AllSources
    (store [entity_a true; entity_b false] [])
  = [entity_a true; entity_b false].
Proof. apply (filteredEntities_unfiltered ascii_lower). reflexivity. Defined.

(** The search of the corrected component finds whatever the search of
    part_000 finds (it also looks at the type tag), for every search
    term, source filter and case mapping; both only ever show entities
    of the store that pass the source filter. *)
Theorem Corrected_search_is_wider
  (toLowerCase : jsstring -> jsstring) (searchTerm : jsstring)
  (sourceFilter : SourceFilter) (s : State) :
  incl (Complete_filteredEntities toLowerCase searchTerm sourceFilter s)
       (Corrected_filteredEntities toLowerCase searchTerm sourceFilter s)
  /\ incl (Corrected_filteredEntities toLowerCase searchTerm sourceFilter s)
          (entities s)
  /\ Forall (fun e => matchesFilter sourceFilter e = true)
            (Corrected_filteredEntities toLowerCase searchTerm sourceFilter s).
Proof.
  unfold Complete_filteredEntities, Corrected_filteredEntities.
  split; [| split].
  - intros e He. apply filter_In in He as [Hin Hp]. apply filter_In.
    split; [exact Hin|]. apply andb_true_iff in Hp as [Hs Hf].
    cbv zeta. rewrite Hf, andb_true_r. apply orb_true_iff. now left.
  - intros e He. now apply filter_In in He.
  - apply Forall_forall. intros e He. apply filter_In in He as [_ Hp].
    now apply andb_true_iff in Hp.
Qed.

(** Searching "PHONE" among the samples: only the corrected search, which
    reads the type, finds the phone entity. *)
Example search_by_type :
  Complete_filteredEntities ascii_lower [80; 72; 79; 78; 69]%N AllSources
    (store [entity_a true; entity_c true] []) = []
  /\ Corrected_filteredEntities ascii_lower [80; 72; 79; 78; 69]%N AllSources
       (store [entity_a true; entity_c true] []) = [entity_c true]
  /\ Corrected_filteredEntities ascii_lower [] (Only REGEX)
       (store [entity_a true; entity_c true] []) = [entity_c true].
Proof. repeat split. Qed.

(** ** The grouping ticks *)

Lemma includes_In (ids : list jsstring) (x : jsstring) :
  includes ids x = true <-> In x ids.
Proof.
  unfold includes. rewrite existsb_exists. split.
  - intros (y & Hy & E). apply jsstring_eqb_eq in E. now subst.
  - intros H. exists x. split; [exact H | apply jsstring_eqb_refl].
Qed.

Lemma includes_not_In (ids : list jsstring) (x : jsstring) :
  includes ids x = false <-> ~ In x ids.
Proof.
  rewrite <- includes_In. destruct (includes ids x); split; congruence.
Qed.

Lemma In_without (ids : list jsstring) (x i : jsstring) :
  In x (filter (fun j => negb (jsstring_eqb j i)) ids) <-> In x ids /\ x <> i.
Proof.
  rewrite filter_In, negb_true_iff, jsstring_eqb_neq. tauto.
Qed.

(** A click on the grouping box of an entity flips what the box shows,
    never ticks an id twice, and a second click undoes the first when
    the id was not ticked. *)
Theorem clickTick_flips (entityId : jsstring) (s : State) :
  NoDup (selectedEntities s) ->
  NoDup (selectedEntities (clickTick entityId s))
  /\ includes (selectedEntities (clickTick entityId s)) entityId
     = negb (includes (selectedEntities s) entityId)
  /\ (~ In entityId (selectedEntities s) ->
      clickTick entityId (clickTick entityId s) = s)
  /\ entities (clickTick entityId s) = entities s.
Proof.
  intros Hnd.
  assert (Hin : includes (selectedEntities s ++ [entityId]) entityId = true)
    by (apply includes_In, in_or_app; right; now left).
  split; [| split; [| split]].
  - unfold clickTick.
    destruct (includes (selectedEntities s) entityId) eqn:Hi; simpl.
    + now apply NoDup_filter.
    + apply includes_not_In in Hi.
      apply NoDup_app; [exact Hnd | repeat constructor; intros [] |].
      intros x Hx [<- | []]. contradiction.
  - unfold clickTick.
    destruct (includes (selectedEntities s) entityId) eqn:Hi; simpl.
    + apply includes_not_In. rewrite In_without. tauto.
    + exact Hin.
  - intros Hn. apply includes_not_In in Hn.
    unfold clickTick at 2. rewrite Hn. unfold clickTick. simpl.
    rewrite Hin. simpl. unfold setSelectedEntities. simpl.
    rewrite filter_app. simpl. rewrite jsstring_eqb_refl. simpl.
    rewrite app_nil_r, filter_id.
    + now destruct s.
    + intros x Hx. apply negb_true_iff, jsstring_eqb_neq.
      intros ->. apply includes_not_In in Hn. contradiction.
  - unfold clickTick, tickEntity.
    now destruct (negb (includes (selectedEntities s) entityId)).
Qed.

Lemma clickTick_flips_witness :
  let s := store [entity_a true; entity_c true] [[49]]%N in
  selectedEntities (clickTick [51]%N s) = [[49]; [51]]%N
  /\ clickTick [51]%N (clickTick [51]%N s) = s.
Proof.
  intros s.
  assert (Hnd : NoDup (selectedEntities s))
    by (repeat constructor; simpl; tauto).
  destruct (@clickTick_flips [51]%N s Hnd) as (_ & _ & Hback & _).
  split; [reflexivity|]. apply Hback.
  intros [E | []]. discriminate.
Defined.

Lemma ids_replace_where
  (hit : Entity -> bool) (value : jsstring) (es : list Entity) :
  map id (map (fun e => if hit e then with_replacement value e else e) es)
  = map id es.
Proof. apply replace_where_ids. Qed.

Lemma ids_toggle (entityId : jsstring) (es : list Entity) :
  map id (map (toggle_one entityId) es) = map id es.
Proof.
  rewrite map_map. apply map_pointwise. intros e. apply toggle_one_id.
Qed.

(** The handlers of the corrected dashboard keep the grouping ticks
    inside the store: if every ticked id belongs to an entity of the
    store, so it does after editing, grouping, deleting (the deleted id is
    unticked), toggling, select-all and ticking an entity of the store.
    This is a property of these six handlers only: onDrop and the button
    "Nouveau document" replace the entity list and leave the ticks, see
    [ticks_outlive_document]. *)
Theorem Corrected_dashboard_keeps_ticks_in_store (s : State) :
  TicksInStore s ->
  (forall entityId value,
      TicksInStore (fst (Corrected.updateEntityReplacement entityId value s)))
  /\ (forall answer, TicksInStore (fst (Corrected.createGroup answer s)))
  /\ (forall entityId confirmed,
         TicksInStore (fst (Corrected.deleteEntity entityId confirmed s)))
  /\ (forall entityId, TicksInStore (toggleEntity entityId s))
  /\ TicksInStore (selectAll s)
  /\ (forall entityId,
         In entityId (map id (entities s)) ->
         TicksInStore (clickTick entityId s)).
Proof.
  unfold TicksInStore. intros H.
  split; [| split; [| split; [| split; [| split]]]].
  - intros entityId value. unfold Corrected.updateEntityReplacement.
    destruct (negb (truthy value) || jsstring_eqb (trim value) []);
      [exact H|]. simpl. intros i Hi. rewrite ids_replace_where. auto.
  - intros answer. unfold Corrected.createGroup.
    destruct (length (selectedEntities s) <? 2)%nat; [exact H|].
    destruct answer as [g|]; [|exact H].
    destruct (truthy g && truthy (trim g)); [|exact H].
    simpl. intros i [].
  - intros entityId [|]; simpl; [|exact H].
    intros i Hi. apply In_without in Hi as [Hi Hne].
    apply H in Hi. apply in_map_iff in Hi as (e & <- & He).
    apply in_map. apply filter_In. split; [exact He|].
    now apply other_id_true.
  - intros entityId. simpl. intros i Hi. rewrite ids_toggle. auto.
  - simpl. intros i Hi. rewrite map_map. simpl. auto.
  - intros entityId Hin. unfold clickTick, tickEntity.
    destruct (negb (includes (selectedEntities s) entityId)); simpl.
    + intros i Hi. apply in_app_or in Hi as [Hi | [<- | []]]; auto.
    + intros i Hi. apply In_without in Hi as [Hi _]. auto.
Qed.

Lemma Corrected_dashboard_keeps_ticks_in_store_witness :
  let s := store [entity_a true; entity_c true] [[49]; [51]]%N in
  TicksInStore s
  /\ TicksInStore (fst (Corrected.deleteEntity [49]%N true s))
  /\ selectedEntities (fst (Corrected.deleteEntity [49]%N true s)) = [[51]]%N.
Proof.
  intros s.
  assert (H : TicksInStore s).
  { intros i [<- | [<- | []]]; simpl; tauto. }
  destruct (Corrected_dashboard_keeps_ticks_in_store H) as (_ & _ & Hd & _).
  split; [exact H|]. split; [apply Hd | reflexivity].
Defined.

(** The deleteEntity of part_000 leaves the tick of the deleted entity
    behind. *)
Example Complete_deleteEntity_leaves_tick :
  selectedEntities
    (fst (Complete.deleteEntity [49]%N true
            (store [entity_a true; entity_c true] [[49]; [51]]%N)))
  = [[49]; [51]]%N.
Proof. reflexivity. Qed.

Lemma ids_of_filter_unique (keep : Entity -> bool) (es : list Entity) :
  NoDup (map id es) -> NoDup (map id (filter keep es)).
Proof.
  induction es as [|e r IH]; simpl; intros H; [constructor|].
  inversion H as [|x r' Hx Hr]; subst.
  destruct (keep e); simpl; auto. constructor; auto.
  intros Hin. apply Hx. apply in_map_iff in Hin as (y & Hy & Hf).
  apply in_map_iff. exists y. split; [exact Hy|]. now apply filter_In in Hf.
Qed.

Lemma ticked_entities_count (ticks : list jsstring) (es : list Entity) :
  NoDup (map id es) -> NoDup ticks ->
  (forall i, In i ticks -> In i (map id es)) ->
  length (filter (fun e => includes ticks (id e)) es) = length ticks.
Proof.
  intros Hes Ht Hin.
  rewrite <- (length_map id (filter (fun e => includes ticks (id e)) es)).
  apply Permutation_length. apply NoDup_Permutation.
  - now apply ids_of_filter_unique.
  - exact Ht.
  - intros x. rewrite in_map_iff. split.
    + intros (e & <- & He). apply filter_In in He as [_ He].
      now apply includes_In.
    + intros Hx. destruct (proj1 (in_map_iff _ _ _) (Hin x Hx))
        as (e & <- & He).
      exists e. split; [reflexivity|]. apply filter_In.
      split; [exact He | now apply includes_In].
Qed.

(** The number announced by createGroup is the number of entities it
    changed, when the ids of the store are distinct, no id is ticked
    twice and every ticked id belongs to an entity of the store. *)
Theorem createGroup_count_is_exact
  (v : Variant) (shared : jsstring) (s : State) :
  IdsUnique s -> NoDup (selectedEntities s) -> TicksInStore s ->
  (2 <= length (selectedEntities s))%nat ->
  blank shared = false ->
  snd (createGroup_of v (Some shared) s)
  = [Alert (NoticeGroupCreated shared
              (length (filter (fun e => includes (selectedEntities s) (id e))
                              (entities s))))].
Proof.
  intros Hu Hn Ht H Hb.
  rewrite (@ticked_entities_count (selectedEntities s) (entities s) Hu Hn Ht).
  apply Nat.ltb_ge in H.
  destruct v; simpl; unfold Complete.createGroup, Corrected.createGroup;
    rewrite H.
  - now rewrite (not_blank_truthy _ Hb).
  - now rewrite group_guard_is_not_blank, Hb.
Qed.

Lemma createGroup_count_is_exact_witness :
  snd (createGroup_of CompleteApp (Some [88]%N)
         (store [entity_a true; entity_b false; entity_c true]
                [[49]; [51]]%N))
  = [Alert (NoticeGroupCreated [88]%N 2)].
Proof.
  apply (@createGroup_count_is_exact CompleteApp [88]%N
           (store [entity_a true; entity_b false; entity_c true]
                  [[49]; [51]]%N)).
  - repeat constructor; simpl; intuition discriminate.
  - repeat constructor; simpl; intuition discriminate.
  - intros i [<- | [<- | []]]; simpl; tauto.
  - simpl. lia.
  - reflexivity.
Defined.

(** ** The name of the generated document *)

Lemma before_dot_split (s : jsstring) :
  exists rest,
    s = before_dot s ++ rest
    /\ ~ In 46%N (before_dot s)
    /\ (rest = [] \/ exists r, rest = 46%N :: r).
Proof.
  induction s as [|c s (rest & Hs & Hn & Hr)]; simpl.
  - exists []. repeat split; auto.
  - destruct (N.eqb c 46) eqn:Hc.
    + apply N.eqb_eq in Hc. subst c. exists (46%N :: s).
      repeat split; auto. right. now exists s.
    + apply N.eqb_neq in Hc. exists rest. simpl. split; [now f_equal|].
      split; [|exact Hr]. intros [E | Hin]; [congruence | contradiction].
Qed.

(** The download is named after the part of the file name before its
    first dot, followed by "_anonymise.docx": that part is dot-free, it
    is the whole name when the name has no dot, and what it leaves out
    starts with a dot. *)
Theorem output_name_stem (d : Document) :
  exists stem rest,
    output_name d = stem ++ anonymise_suffix
    /\ filename d = stem ++ rest
    /\ ~ In 46%N stem
    /\ (rest = [] \/ exists r, rest = 46%N :: r)
    /\ (~ In 46%N (filename d) -> stem = filename d).
Proof.
  destruct (before_dot_split (filename d)) as (rest & Hs & Hn & Hr).
  exists (before_dot (filename d)), rest.
  repeat split; auto.
  intros Hnd. destruct Hr as [-> | [r ->]].
  - now rewrite app_nil_r in Hs.
  - exfalso. apply Hnd. rewrite Hs. apply in_or_app. right. now left.
Qed.

(** "rapport.v2.pdf" is delivered as "rapport_anonymise.docx". *)
Example output_name_two_dots :
  output_name
    (mkDocument [114; 97; 112; 112; 111; 114; 116; 46; 118; 50; 46;
                 112; 100; 102]%N [])
  = [114; 97; 112; 112; 111; 114; 116; 95; 97; 110; 111; 110; 121; 109;
     105; 115; 101; 46; 100; 111; 99; 120]%N.
Proof. reflexivity. Qed.

(** ** Document generation, again *)

(** Every click on the generate button ends with exactly one alert, its
    last effect, in both components; a request, if any, is the first
    effect and the only one.  No run starts the download or shows the
    success alert: after an answered request the handler calls
    [createElement] on the state variable [document], which hides the DOM
    document, and ends in the catch block. *)
Theorem generateDocument_feedback
  (v : Variant) (server : Payload -> bool) (s : State) :
  let run := match v with
             | CompleteApp => Complete.generateDocument server s
             | CorrectedApp => Corrected.generateDocument server s
             end in
  exists before n,
    run = before ++ [Alert n]
    /\ (before = [] \/ exists p, before = [PostGenerateDocument p])
    /\ (n = NoticeNoEntity \/ n = NoticeNoneSelected
        \/ n = NoticeGenerationError)
    /\ (forall x, ~ In (Download x) run)
    /\ (forall p, In (PostGenerateDocument p) run ->
                  n = NoticeGenerationError).
Proof.
  assert (Hpost : forall p,
             exists before n,
               [PostGenerateDocument p; Alert NoticeGenerationError]
               = before ++ [Alert n]
               /\ (before = [] \/ exists q, before = [PostGenerateDocument q])
               /\ (n = NoticeNoEntity \/ n = NoticeNoneSelected
                   \/ n = NoticeGenerationError)
               /\ (forall x, ~ In (Download x)
                                 [PostGenerateDocument p;
                                  Alert NoticeGenerationError])
               /\ (forall q, In (PostGenerateDocument q)
                               [PostGenerateDocument p;
                                Alert NoticeGenerationError] ->
                             n = NoticeGenerationError)).
  { intros p. exists [PostGenerateDocument p], NoticeGenerationError.
    split; [reflexivity|]. split; [right; now exists p|].
    split; [auto|]. split; [|reflexivity].
    intros x [E | [E | []]]; discriminate. }
  assert (Halert : forall m,
             m = NoticeNoEntity \/ m = NoticeNoneSelected
             \/ m = NoticeGenerationError ->
             exists before n,
               [Alert m] = before ++ [Alert n]
               /\ (before = [] \/ exists q, before = [PostGenerateDocument q])
               /\ (n = NoticeNoEntity \/ n = NoticeNoneSelected
                   \/ n = NoticeGenerationError)
               /\ (forall x, ~ In (Download x) [Alert m])
               /\ (forall q, In (PostGenerateDocument q) [Alert m] ->
                             n = NoticeGenerationError)).
  { intros m Hm. exists [], m. split; [reflexivity|]. split; [now left|].
    split; [exact Hm|]. split.
    - intros x [E | []]. discriminate.
    - intros q [E | []]. discriminate. }
  destruct v; cbv zeta.
  - unfold Complete.generateDocument.
    destruct (document s) as [d|]; [|apply Halert; auto].
    destruct (server _); apply Hpost.
  - unfold Corrected.generateDocument.
    destruct (length (entities s) =? 0)%nat; [apply Halert; auto|].
    destruct (length (filter selected (entities s)) =? 0)%nat;
      [apply Halert; auto|].
    destruct (document s) as [d|]; [|apply Halert; auto].
    destruct (server _); apply Hpost.
Qed.

(** ** Select-all and the non-overlap of spans *)

(** When the spans of all entities are pairwise non-overlapping, they
    still are after a click on select-all, and so are those of the
    selected ones. *)
Theorem selectAll_keeps_disjoint (s : State) :
  AllDisjoint s ->
  AllDisjoint (selectAll s) /\ SelectedDisjoint (selectAll s).
Proof.
  intros H.
  assert (HA : AllDisjoint (selectAll s)).
  { unfold AllDisjoint. simpl.
    rewrite disjoint_among_map; [exact H | reflexivity | reflexivity]. }
  split; [exact HA | now apply disjoint_among_all].
Qed.

Lemma selectAll_keeps_disjoint_witness :
  SelectedDisjoint (selectAll (store [entity_a true; entity_c false] [])).
Proof.
  apply (@selectAll_keeps_disjoint (store [entity_a true; entity_c false] [])).
  reflexivity.
Defined.

(** ** Uploading a document *)

Module UploadFacts.
Import Upload.

Lemma empty_guard_is_blank (content : jsstring) :
  negb (truthy content) || (length (trim content) =? 0)%nat = blank content.
Proof.
  rewrite <- guard_is_blank. f_equal.
  destruct (trim content); reflexivity.
Qed.

(** A drop that carries no file, a file above 50 MB or a file whose text
    is empty or white space only changes nothing and sends nothing. *)
Theorem onDrop_rejects
  (acceptedFiles : list File) (server : Request -> Outcome) (s : Session) :
  match acceptedFiles with
  | [] => True
  | file :: _ =>
      (max_size < size file)%N
      \/ (exists content, read file = Some content /\ blank content = true)
  end ->
  fst (onDrop acceptedFiles server s) = s
  /\ forall r, ~ In (PostProcess r) (snd (onDrop acceptedFiles server s)).
Proof.
  destruct acceptedFiles as [|file rest]; simpl.
  - intros _. split; [reflexivity | intros r []].
  - destruct (max_size <? size file)%N eqn:Hsz.
    + intros _. split; [reflexivity|]. intros r [E | []]. discriminate.
    + intros [Hbig | (content & Hr & Hb)].
      * apply N.ltb_lt in Hbig. congruence.
      * rewrite Hr, empty_guard_is_blank, Hb.
        split; [reflexivity|]. intros r [E | []]. discriminate.
Qed.

Lemma onDrop_rejects_witness :
  fst (onDrop [sample_file [32; 10]%N] sample_server sample_session)
  = sample_session.
Proof.
  apply (@onDrop_rejects [sample_file [32; 10]%N] sample_server sample_session).
  right. exists [32; 10]%N. split; reflexivity.
Defined.

(** The spinner never stays on: if no processing is under way when a
    file is dropped, none is when onDrop is done, whatever the file and
    whatever the server answers. *)
Theorem onDrop_ends_processing
  (acceptedFiles : list File) (server : Request -> Outcome) (s : Session) :
  processing s = false ->
  processing (fst (onDrop acceptedFiles server s)) = false.
Proof.
  intros H. unfold onDrop.
  destruct acceptedFiles as [|file rest]; [exact H|].
  destruct (max_size <? size file)%N; [exact H|].
  destruct (read file) as [content|]; [|reflexivity].
  destruct (negb (truthy content) || (length (trim content) =? 0)%nat);
    [exact H|].
  destruct (server _) as [data | error]; [|reflexivity].
  destruct (length _ =? 0)%nat; reflexivity.
Qed.

Lemma onDrop_ends_processing_witness :
  processing
    (fst (onDrop [sample_file sample_text] (fun _ => Failed
            (mkHttpError None (Some 500%N) None [])) sample_session))
  = false.
Proof. apply onDrop_ends_processing. reflexivity. Defined.

(** The dashboard opens only on a detection: if onDrop leaves the upload
    page for the dashboard, the server answered the request with a
    non-empty entity list, and that list is the store. *)
Theorem onDrop_dashboard_has_entities
  (acceptedFiles : list File) (server : Request -> Outcome) (s : Session) :
  currentPage s = upload ->
  currentPage (fst (onDrop acceptedFiles server s)) = dashboard ->
  entities (app (fst (onDrop acceptedFiles server s))) <> []
  /\ exists r data,
       In (PostProcess r) (snd (onDrop acceptedFiles server s))
       /\ server r = Answered data
       /\ data_entities data
          = Some (entities (app (fst (onDrop acceptedFiles server s)))).
Proof.
  intros Hu. unfold onDrop.
  destruct acceptedFiles as [|file rest]; [simpl; congruence|].
  destruct (max_size <? size file)%N; [simpl; congruence|].
  destruct (read file) as [content|]; [|simpl; congruence].
  destruct (negb (truthy content) || (length (trim content) =? 0)%nat);
    [simpl; congruence|].
  destruct (server _) as [data | error] eqn:Hs; [|simpl; congruence].
  destruct (data_entities data) as [es|] eqn:Hd; [|simpl; congruence].
  destruct (length es =? 0)%nat eqn:Hl; [simpl; congruence|].
  simpl. intros _. split.
  - intros E. rewrite E in Hl. discriminate.
  - eexists _, data. split; [left; reflexivity|]. split; [exact Hs | exact Hd].
Qed.

Lemma onDrop_dashboard_has_entities_witness :
  entities (app (fst (onDrop [sample_file sample_text] sample_server
                        sample_session)))
  <> [].
Proof.
  apply (@onDrop_dashboard_has_entities
           [sample_file sample_text] sample_server sample_session);
    reflexivity.
Defined.



(** A failure of the request is always reported with words: the message
    taken over from the error, or from the detail of a server error, is
    never the empty string. *)
Theorem errorMessage_never_empty (error : HttpError) :
  (forall m, errorMessage error = Verbatim m -> truthy m = true)
  /\ (forall d, errorMessage error = ServerError (Some d) -> truthy d = true).
Proof.
  unfold errorMessage, truthy_detail.
  destruct (code_is ECONNABORTED error); [split; discriminate|].
  destruct (status_is 500 error).
  { split; [discriminate|]. intros d.
    destruct (detail error) as [x|]; [|discriminate].
    destruct (truthy x) eqn:Hx; [|discriminate]. intros E.
    injection E as <-. exact Hx. }
  destruct (status_is 422 error); [split; discriminate|].
  destruct (code_is ECONNREFUSED error
            || str_includes (message error) Network_Error);
    [split; discriminate|].
  split; [|destruct (detail error) as [x|];
           [destruct (truthy x)|]; try discriminate;
           destruct (truthy (message error)); discriminate].
  intros m. destruct (detail error) as [x|].
  - destruct (truthy x) eqn:Hx.
    + intros E. injection E as <-. exact Hx.
    + destruct (truthy (message error)) eqn:Hm; [|discriminate].
      intros E. injection E as <-. exact Hm.
  - destruct (truthy (message error)) eqn:Hm; [|discriminate].
    intros E. injection E as <-. exact Hm.
Qed.

Lemma Settled_store_op (a' : State) (s : Session) :
  document a' = document (app s) ->
  (entities (app s) = [] -> entities a' = []) ->
  Settled s -> Settled (setApp a' s).
Proof.
  intros Hd He (Hm & Hp & Hpage & Hdoc). unfold Settled. simpl.
  rewrite Hd. repeat split; auto.
Qed.

Lemma Settled_onDrop
  (acceptedFiles : list File) (server : Request -> Outcome) (s : Session) :
  Settled s -> Settled (fst (onDrop acceptedFiles server s)).
Proof.
  intros H. pose proof H as (Hm & Hp & Hpage & Hdoc). unfold onDrop.
  destruct acceptedFiles as [|file rest]; [exact H|].
  destruct (max_size <? size file)%N; [exact H|].
  destruct (read file) as [content|].
  - destruct (negb (truthy content) || (length (trim content) =? 0)%nat);
      [exact H|].
    destruct (server _) as [data | error].
    + destruct (length _ =? 0)%nat; unfold Settled; simpl;
        repeat split; auto; discriminate.
    + unfold Settled; simpl; repeat split; auto; discriminate.
  - unfold Settled. simpl. repeat split; auto.
Qed.

Lemma Settled_step (s : Session) (e : Event) : Settled s -> Settled (step s e).
Proof.
  intros H. pose proof H as (Hm & Hp & Hpage & Hdoc).
  destruct e; simpl.
  - destruct answer; unfold Settled; simpl; repeat split; auto.
  - unfold Settled. simpl. repeat split; auto. discriminate.
  - unfold clickAdvanced. destruct (spacy_available (systemStatus s));
      [|exact H]. unfold Settled. simpl. repeat split; auto. discriminate.
  - now apply Settled_onDrop.
  - unfold Settled. simpl. repeat split; auto. discriminate.
  - apply Settled_store_op; [reflexivity | | exact H].
    simpl. now intros ->.
  - apply Settled_store_op; [| | exact H];
      unfold Corrected.updateEntityReplacement;
      destruct (negb (truthy value) || jsstring_eqb (trim value) []);
      simpl; auto. now intros ->.
  - apply Settled_store_op; [| | exact H]; destruct confirmed; simpl; auto.
    now intros ->.
  - apply Settled_store_op; [| | exact H];
      unfold Corrected.createGroup;
      destruct (length (selectedEntities (app s)) <? 2)%nat; simpl; auto;
      destruct answer as [g|]; simpl; auto;
      destruct (truthy g && truthy (trim g)); simpl; auto.
    now intros ->.
  - apply Settled_store_op; [reflexivity | | exact H].
    simpl. now intros ->.
  - apply Settled_store_op; [| | exact H];
      unfold clickTick, tickEntity;
      destruct (negb (includes (selectedEntities (app s)) entityId));
      simpl; auto.
  - exact H.
Qed.

(** Whatever happens to the corrected component, in whatever order: the
    mode sent to the back end is never 'ollama'; no handler leaves the
    spinner on; the dashboard is never shown without a document (so
    generateDocument always finds one there); and a store without a
    document holds no entity. *)
Theorem run_settled (events : list Event) :
  currentMode (run events) <> ollama
  /\ processing (run events) = false
  /\ (currentPage (run events) = dashboard ->
      document (app (run events)) <> None)
  /\ (document (app (run events)) = None -> entities (app (run events)) = []).
Proof.
  change (Settled (run events)). unfold run.
  assert (H : Settled initial).
  { unfold Settled, initial. simpl. repeat split; congruence. }
  revert H. generalize initial.
  induction events as [|e events IH]; intros s H; simpl; [exact H|].
  apply IH. now apply Settled_step.
Qed.

(** Ticks are not cleared with the document: after a drop, a tick on the
    detected entity "3" and a click on "Nouveau document", the store is
    empty and "3" is still ticked. *)
Example ticks_outlive_document :
  let s := run [Dropped [sample_file sample_text] sample_server;
                TickClicked [51]%N;
                NewDocumentClicked] in
  entities (app s) = [] /\ selectedEntities (app s) = [[51]%N].
Proof. split; reflexivity. Qed.

(** A session: the status arrives, the advanced mode is chosen, a file is
    dropped and analysed, one entity is deselected. *)
Example run_sample :
  let s := run [StatusChecked (inl (mkSystemStatus true false));
                AdvancedClicked;
                Dropped [sample_file sample_text] sample_server;
                EntityToggled [51]%N] in
  currentMode s = advanced
  /\ currentPage s = dashboard
  /\ entities (app s) = [entity_c false]
  /\ run [AdvancedClicked] = initial.
Proof. repeat split. Qed.

End UploadFacts.
